(** * Conference Hall: domain services and request handlers

    A shallow embedding of the server-side code of Conference Hall:
    user registration ([UserAccount]), the cookie session
    ([getSessionUserId], [requireSession], [createSession]), the
    event-integrations route action, the team invitation link, and the
    speaker-proposal / team-members services exercised by the test suites.

    Asynchronous functions are embedded as functions that either resolve
    to a value or reject with a thrown value ([Outcome]); function bodies
    with early [return] and [try]/[catch] are embedded with JavaScript
    completion records ([Completion]).  Database tables are lists of
    rows (insertion order kept, as Prisma's [findFirst]/[findUnique] scan
    them); a cookie session is a finite map from keys to values. *)

From stdpp Require Import base option list strings gmap pretty.

Local Open Scope string_scope.

(** ** Promises and completion records *)

(** What a thrown value can be in this code base: an HTTP [Response]
    (React Router's [throw redirect(...)]) or an error object, kept by its
    class name and message. *)
Record Response := mkResponse {
  resp_status : nat;
  resp_location : string;
  resp_setCookie : option string;
}.

Inductive Thrown :=
| ThrownResponse (r : Response)
| ThrownError (name message : string)
| ThrownValue (v : string).

(** [_error?.message] *)
Definition message (e : Thrown) : option string :=
  match e with
  | ThrownError _ m => Some m
  | _ => None
  end.

(** The settled state of a promise. *)
Inductive Outcome (A : Type) :=
| Resolves (a : A)
| Rejects (e : Thrown).
Arguments Resolves {A} a.
Arguments Rejects {A} e.

(** The completion of a statement list inside a function body. *)
Inductive Completion (R : Type) :=
| Normal
| Return (r : R)
| Throw (e : Thrown).
Arguments Normal {R}.
Arguments Return {R} r.
Arguments Throw {R} e.

(** Code that talks to the outside (database, Firebase, mailer) runs over
    a world [W]; an awaited expression yields an [Outcome], a statement a
    [Completion], each with the world it leaves. *)
Section Effects.

Context {W : Type}.

Definition Expr (A : Type) : Type := W → Outcome A * W.
Definition Stmt (R : Type) : Type := W → Completion R * W.

(** A value at hand. *)
Definition pure {A} (a : A) : Expr A := λ w, (Resolves a, w).

(** An expression that settles as [o] without touching the world. *)
Definition settle {A} (o : Outcome A) : Expr A := λ w, (o, w).

(** [const x = await e; k x] *)
Definition bind_await {A R} (e : Expr A) (k : A → Stmt R) : Stmt R :=
  λ w, match e w with
       | (Resolves a, w') => k a w'
       | (Rejects x, w') => (Throw x, w')
       end.

(** [s1; s2] *)
Definition seq {R} (s1 s2 : Stmt R) : Stmt R :=
  λ w, match s1 w with
       | (Normal, w') => s2 w'
       | (c, w') => (c, w')
       end.

Definition skip {R} : Stmt R := λ w, (Normal, w).

(** [return r;] *)
Definition ret {R} (r : R) : Stmt R := λ w, (Return r, w).

(** [throw e;] *)
Definition throw {R} (e : Thrown) : Stmt R := λ w, (Throw e, w).

(** [if (c) s] with no [else]. *)
Definition when {R} (c : bool) (s : Stmt R) : Stmt R := if c then s else skip.

(** [try { body } catch (e) { handler e }] *)
Definition try_catch {R} (body : Stmt R) (handler : Thrown → Stmt R) : Stmt R :=
  λ w, match body w with
       | (Throw e, w') => handler e w'
       | (c, w') => (c, w')
       end.

(** The promise of an [async] function with the given body; falling off
    the end resolves to [undefined], given here as [dflt]. *)
Definition async {R} (dflt : R) (body : Stmt R) : Expr R :=
  λ w, match body w with
       | (Normal, w') => (Resolves dflt, w')
       | (Return r, w') => (Resolves r, w')
       | (Throw e, w') => (Rejects e, w')
       end.

End Effects.

Notation "'await' x ← e ;; k" := (bind_await e (λ x, k))
  (at level 100, x name, e at next level, k at level 200, right associativity).
Notation "'await' ' p ← e ;; k" := (bind_await e (λ x, match x with p => k end))
  (at level 100, p pattern, e at next level, k at level 200, right associativity).
Notation "s1 ;;; s2" := (seq s1 s2) (at level 100, s2 at level 200, right associativity).

(** JavaScript truthiness of a value that is a string or absent
    ([undefined]/[null]): absent and the empty string are falsy. *)
Definition truthy (v : option string) : bool :=
  match v with
  | Some s => negb (String.eqb s "")
  | None => false
  end.

(** ** User registration: [app/.server/user-registration/user-account.ts] *)

Module UserRegistration.

(** Rows of the [users] and [authenticationMethod] tables, with the
    columns [register] writes. *)
Record User := mkUser {
  user_id : string;
  user_name : string;
  user_email : string;
  user_emailVerified : option bool;
  user_picture : option string;
}.

Record AuthenticationMethod := mkAuthenticationMethod {
  am_uid : string;
  am_name : string;
  am_email : string;
  am_picture : option string;
  am_provider : string;
  am_userId : string;
}.

Record Db := mkDb {
  users : list User;
  authenticationMethods : list AuthenticationMethod;
}.

(** [UserAccountCreateInput]; a field that can be [undefined] at run time
    (and so take its destructuring default) is an [option]. *)
Record UserAccountCreateInput := mkInput {
  uid : string;
  name : option string;
  email : option string;
  emailVerified : option bool;
  picture : option string;
  provider : option string;
}.

(** [db.authenticationMethod.findUnique({ where: { uid } })] *)
Definition findUnique (db : Db) (u : string) : option AuthenticationMethod :=
  snd <$> list_find (λ a, am_uid a = u) (authenticationMethods db).

(** The [include: { user: true }] join over the required relation
    [authenticationMethod.userId -> user.id]. *)
Definition include_user (db : Db) (a : AuthenticationMethod) : option User :=
  snd <$> list_find (λ u, user_id u = am_userId a) (users db).

Definition inconsistent : Thrown :=
  ThrownError "PrismaClientUnknownRequestError" "Inconsistent query result".

Section Register.

(** The primary key the database draws for a new [user] row. *)
Variable createId : Db → string.

(** [db.authenticationMethod.create({ data: { ..., user: { create } } })]:
    one [user] row and one [authenticationMethod] row pointing at it. *)
Definition create (db : Db) (u name email : string) (picture : option string)
    (provider : string) (emailVerified : option bool)
  : AuthenticationMethod * User * Db :=
  let id := createId db in
  let usr := mkUser id name email emailVerified picture in
  let am := mkAuthenticationMethod u name email picture provider id in
  (am, usr, mkDb (users db ++ [usr]) (authenticationMethods db ++ [am])).

(** [UserAccount.register] *)
Definition register (data : UserAccountCreateInput) : Expr (W:=Db) string :=
  λ db,
  match findUnique db (uid data) with
  | Some authentication =>
      match include_user db authentication with
      | Some user => (Resolves (user_id user), db)
      | None => (Rejects inconsistent, db)
      end
  | None =>
      let uid_ := uid data in
      let name_ := default "(No name)" (name data) in
      let email_ := default (uid data +:+ "@example.com") (email data) in
      let provider_ := default "unknown" (provider data) in
      let '(_, user, db') :=
        create db uid_ name_ email_ (picture data) provider_ (emailVerified data) in
      (Resolves (user_id user), db')
  end.

End Register.

(** Referential integrity of the required relation: every authentication
    method points at a user row. *)
Definition db_wf (db : Db) : Prop :=
  Forall (λ a, is_Some (include_user db a)) (authenticationMethods db).

#[export] Instance db_wf_dec db : Decision (db_wf db).
Proof. unfold db_wf. apply _. Defined.

(** *** Facts about the two queries *)

Lemma findUnique_Some db u a :
  findUnique db u = Some a → a ∈ authenticationMethods db ∧ am_uid a = u.
Proof.
  unfold findUnique. intros H.
  destruct (list_find _ _) as [[i x]|] eqn:E; simplify_eq/=.
  apply list_find_Some in E as (Hi & Hp & _).
  split; [by eapply list_elem_of_lookup_2|done].
Qed.

Lemma findUnique_None db u :
  findUnique db u = None ↔ ∀ a, a ∈ authenticationMethods db → am_uid a ≠ u.
Proof.
  unfold findUnique. rewrite fmap_None, list_find_None, Forall_forall. done.
Qed.

Lemma include_user_Some db a u :
  include_user db a = Some u → u ∈ users db ∧ user_id u = am_userId a.
Proof.
  unfold include_user. intros H.
  destruct (list_find _ _) as [[i x]|] eqn:E; simplify_eq/=.
  apply list_find_Some in E as (Hi & Hp & _).
  split; [by eapply list_elem_of_lookup_2|done].
Qed.

(** A row appended to a table that had no match is the one the scan finds. *)
Lemma list_find_snoc {A} (P : A → Prop) `{∀ x, Decision (P x)} (l : list A) x :
  Forall (λ y, ¬ P y) l → P x → list_find P (l ++ [x]) = Some (length l, x).
Proof.
  intros Hl Hx. apply list_find_Some. split_and!.
  - by rewrite lookup_app_r, Nat.sub_diag.
  - done.
  - intros j y Hj Hlt. rewrite lookup_app_l in Hj by done.
    eapply Forall_forall in Hl; [done|]. by eapply list_elem_of_lookup_2.
Qed.

(** A scan for a key that some row of the table has finds a row with it. *)
Lemma list_find_elem_of_is_Some {A} (P : A → Prop) `{∀ x, Decision (P x)} (l : list A) x :
  x ∈ l → P x → ∃ i y, list_find P l = Some (i, y) ∧ P y.
Proof.
  intros Hin Hx. destruct (list_find P l) as [[i y]|] eqn:E.
  - exists i, y. split; [done|]. by apply list_find_Some in E as (_ & ? & _).
  - apply list_find_None in E. eapply Forall_forall in E; [|done]. done.
Qed.

Section RegisterFacts.

Variable createId : Db → string.

Lemma register_existing data db a u :
  findUnique db (uid data) = Some a → include_user db a = Some u →
  register createId data db = (Resolves (user_id u), db).
Proof. intros Ha Hu. unfold register. by rewrite Ha, Hu. Qed.

Lemma register_new data db :
  findUnique db (uid data) = None →
  register createId data db =
    (Resolves (createId db),
     mkDb (users db ++ [mkUser (createId db) (default "(No name)" (name data))
                          (default (uid data +:+ "@example.com") (email data))
                          (emailVerified data) (picture data)])
          (authenticationMethods db ++
             [mkAuthenticationMethod (uid data) (default "(No name)" (name data))
                (default (uid data +:+ "@example.com") (email data))
                (picture data) (default "unknown" (provider data)) (createId db)])).
Proof. intros Ha. unfold register. by rewrite Ha. Qed.

(** Registration keeps the relation intact. *)
Lemma register_wf data db :
  db_wf db → db_wf (register createId data db).2.
Proof.
  intros Hwf. destruct (findUnique db (uid data)) as [a|] eqn:Ha.
  - unfold register. rewrite Ha. by destruct (include_user db a).
  - rewrite register_new by done. simpl.
    set (usr := mkUser _ _ _ _ _). unfold db_wf in *. simpl.
    apply Forall_app. split.
    + eapply Forall_impl; [exact Hwf|]. intros x [u Hu].
      apply include_user_Some in Hu as [Hin Hid].
      unfold include_user. simpl.
      destruct (list_find_elem_of_is_Some (λ u0, user_id u0 = am_userId x)
                  (users db ++ [usr]) u) as (i & y & -> & _);
        [set_solver|done|]. by eexists.
    + apply Forall_singleton. unfold include_user. simpl.
      destruct (list_find_elem_of_is_Some (λ u0, user_id u0 = createId db)
                  (users db ++ [usr]) usr) as (i & y & -> & _);
        [set_solver|done|]. by eexists.
Qed.

End RegisterFacts.

(** C3. [UserAccount.register] on a database that respects the
    user relation: when an authentication method with the given uid exists,
    the call resolves to the id of the user that method belongs to and the
    database is left as it was; when none exists, the call appends exactly
    one user row and one authentication-method row for the uid, linked to
    each other, with the e-mail defaulting to [<uid>@example.com] and the
    provider to [unknown] when absent, and resolves to the new user's id. *)
Theorem register_spec (createId : Db → string) (data : UserAccountCreateInput) (db : Db) :
  db_wf db →
  ((∃ a, a ∈ authenticationMethods db ∧ am_uid a = uid data) →
     ∃ a u, a ∈ authenticationMethods db ∧ am_uid a = uid data ∧
            u ∈ users db ∧ user_id u = am_userId a ∧
            register createId data db = (Resolves (user_id u), db))
  ∧ ((∀ a, a ∈ authenticationMethods db → am_uid a ≠ uid data) →
     ∃ usr am,
       register createId data db =
         (Resolves (user_id usr),
          mkDb (users db ++ [usr]) (authenticationMethods db ++ [am]))
       ∧ am_uid am = uid data ∧ am_userId am = user_id usr
       ∧ (email data = None → user_email usr = uid data +:+ "@example.com")
       ∧ (∀ e, email data = Some e → user_email usr = e)
       ∧ am_email am = user_email usr
       ∧ (provider data = None → am_provider am = "unknown")
       ∧ (∀ p, provider data = Some p → am_provider am = p)).
Proof.
  intros Hwf. split.
  - intros (a0 & Hin0 & Huid0).
    destruct (findUnique db (uid data)) as [a|] eqn:Ha.
    + pose proof (findUnique_Some _ _ _ Ha) as [Hin Huid].
      unfold db_wf in Hwf. rewrite Forall_forall in Hwf.
      destruct (Hwf a Hin) as [u Hu].
      pose proof (include_user_Some _ _ _ Hu) as [Hinu Hid].
      exists a, u. split_and!; try done.
      by apply register_existing with a.
    + rewrite findUnique_None in Ha. by destruct (Ha a0 Hin0).
  - intros Hnone. apply findUnique_None in Hnone.
    rewrite register_new by done.
    set (usr := mkUser _ _ _ _ _). set (am := mkAuthenticationMethod _ _ _ _ _ _).
    exists usr, am. split; [reflexivity|]. simpl.
    split_and!; try done.
    + by intros ->.
    + by intros e ->.
    + by intros ->.
    + by intros p ->.
Qed.

(** C7. [register] is idempotent in the uid: on a database that
    respects the user relation, a first call resolves to some user id, and
    a second call with the same uid, whatever its other fields, resolves to
    that same id and leaves the database exactly as the first call left it
    (no further user or authentication method). *)
Theorem register_idempotent (createId : Db → string)
    (d1 d2 : UserAccountCreateInput) (db : Db) :
  db_wf db → uid d2 = uid d1 →
  ∃ id db1,
    register createId d1 db = (Resolves id, db1) ∧
    register createId d2 db1 = (Resolves id, db1).
Proof.
  intros Hwf Huid.
  destruct (findUnique db (uid d1)) as [a|] eqn:Ha.
  - pose proof (findUnique_Some _ _ _ Ha) as [Hin _].
    unfold db_wf in Hwf. rewrite Forall_forall in Hwf.
    destruct (Hwf a Hin) as [u Hu].
    exists (user_id u), db. split.
    + by apply register_existing with a.
    + apply register_existing with a; [by rewrite Huid|done].
  - rewrite register_new by done.
    eexists _, _. split; [reflexivity|].
    set (usr := mkUser _ _ _ _ _). set (am := mkAuthenticationMethod _ _ _ _ _ _).
    assert (findUnique (mkDb (users db ++ [usr]) (authenticationMethods db ++ [am]))
              (uid d2) = Some am) as Hf.
    { unfold findUnique. simpl. rewrite Huid.
      rewrite (list_find_snoc (λ a, am_uid a = uid d1)); [done| |done].
      unfold findUnique in Ha. rewrite fmap_None in Ha.
      by apply list_find_None in Ha. }
    destruct (list_find_elem_of_is_Some (λ u0, user_id u0 = createId db)
                (users db ++ [usr]) usr) as (i & y & Hy & Hid);
      [set_solver|done|].
    assert (include_user (mkDb (users db ++ [usr]) (authenticationMethods db ++ [am])) am
            = Some y) as Hi.
    { unfold include_user. simpl. by rewrite Hy. }
    rewrite (register_existing createId d2 _ am y Hf Hi). by rewrite Hid.
Qed.

(** *** The scenarios of the test suite *)

(** A key generator to run the scenarios with: the row count, as text. *)
Definition seqId (db : Db) : string := "user-" +:+ pretty (length (users db)).

Definition emptyDb : Db := mkDb [] [].

(** [userFactory({ traits: ['clark-kent'] })] *)
Definition clarkDb : Db :=
  mkDb [mkUser "ck" "Clark Kent" "superman@example.com" None None]
       [mkAuthenticationMethod "9licQdPND0UtBhShJ7vveJ703sJs" "Clark Kent"
          "superman@example.com" None "google.com" "ck"].

Definition bob (u : string) : UserAccountCreateInput :=
  mkInput u (Some "Bob") (Some "bob@example.com") None
    (Some "https://image.com/image.png") None.

(** 'register a new user if doesnt exists' *)
Example register_new_user :
  register seqId (bob "123") emptyDb =
    (Resolves "user-0",
     mkDb [mkUser "user-0" "Bob" "bob@example.com" None (Some "https://image.com/image.png")]
          [mkAuthenticationMethod "123" "Bob" "bob@example.com"
             (Some "https://image.com/image.png") "unknown" "user-0"]).
Proof. vm_compute. reflexivity. Qed.

(** 'register a new user with some default values' *)
Example register_default_values :
  register seqId (mkInput "123" (Some "Bob") None None None None) emptyDb =
    (Resolves "user-0",
     mkDb [mkUser "user-0" "Bob" "123@example.com" None None]
          [mkAuthenticationMethod "123" "Bob" "123@example.com" None "unknown" "user-0"]).
Proof. vm_compute. reflexivity. Qed.

(** 'returns existing user id if already exists' *)
Example register_existing_user :
  register seqId (bob "9licQdPND0UtBhShJ7vveJ703sJs") clarkDb = (Resolves "ck", clarkDb).
Proof. vm_compute. reflexivity. Qed.

Lemma register_spec_witness :
  db_wf clarkDb ∧
  ∃ u, u ∈ users clarkDb ∧
       register seqId (bob "9licQdPND0UtBhShJ7vveJ703sJs") clarkDb
         = (Resolves (user_id u), clarkDb).
Proof.
  assert (db_wf clarkDb) as Hwf by (apply (bool_decide_unpack _); vm_compute; exact I).
  split; [exact Hwf|].
  destruct (register_spec seqId (bob "9licQdPND0UtBhShJ7vveJ703sJs") clarkDb Hwf)
    as [Hexisting _].
  destruct Hexisting as (a & u & _ & _ & Hu & _ & Hr).
  - eexists. split; [apply list_elem_of_here|reflexivity].
  - exists u. split; [exact Hu|exact Hr].
Defined.

Lemma register_idempotent_witness :
  db_wf emptyDb ∧ uid (mkInput "123" None None None None (Some "password")) = uid (bob "123") ∧
  ∃ id db1,
    register seqId (bob "123") emptyDb = (Resolves id, db1) ∧
    register seqId (mkInput "123" None None None None (Some "password")) db1
      = (Resolves id, db1).
Proof.
  assert (db_wf emptyDb) as Hwf by (apply (bool_decide_unpack _); vm_compute; exact I).
  split; [exact Hwf|]. split; [reflexivity|].
  exact (register_idempotent seqId (bob "123")
           (mkInput "123" None None None None (Some "password")) emptyDb Hwf eq_refl).
Defined.

End UserRegistration.

(** ** Password reset e-mail: [UserAccount.sendResetPasswordEmail] *)

Module ResetPassword.

(** [URLSearchParams]: an ordered list of name/value pairs. *)
Definition URLSearchParams := list (string * string).

(** [searchParams.get(name)]: the value of the first pair named [name]. *)
Fixpoint sp_get (name : string) (l : URLSearchParams) : option string :=
  match l with
  | [] => None
  | (n, v) :: l' => if String.eqb n name then Some v else sp_get name l'
  end.

Definition sp_delete (name : string) (l : URLSearchParams) : URLSearchParams :=
  filter (λ p, p.1 ≠ name) l.

(** [searchParams.set(name, value)]: the first pair named [name] takes the
    value and the other pairs of that name go; with no such pair, a new
    one is appended. *)
Fixpoint sp_set (name value : string) (l : URLSearchParams) : URLSearchParams :=
  match l with
  | [] => [(name, value)]
  | (n, v) :: l' =>
      if String.eqb n name then (name, value) :: sp_delete name l'
      else (n, v) :: sp_set name value l'
  end.

(** A parsed [URL]: what stands before the query, and the query. *)
Record URL := mkURL {
  url_base : string;
  searchParams : URLSearchParams;
}.

Definition url_set (name value : string) (u : URL) : URL :=
  mkURL (url_base u) (sp_set name value (searchParams u)).

(** What the function does to the outside, in order. *)
Inductive Effect :=
| GeneratePasswordResetLink (email : string)
| SendResetPasswordEmail (email passwordResetUrl : string)
| ConsoleError (msg : option string).

(** The reset-password e-mails handed to the mailer. *)
Definition emails (log : list Effect) : list (string * string) :=
  omap (λ e, match e with
             | SendResetPasswordEmail email url => Some (email, url)
             | _ => None
             end) log.

Section SendResetPasswordEmail.

(** Firebase Admin's [auth.generatePasswordResetLink]. *)
Variable generatePasswordResetLink : string → Outcome string.
(** The [URL] parser ([None]: [new URL] throws a [TypeError]) and
    serialiser. *)
Variable URL_parse : string → option URL.
Variable URL_toString : URL → string.
(** [appUrl()] *)
Variable appUrl : string.
(** How the mailer ([sendResetPasswordEmail] of the e-mail templates)
    settles for an e-mail and a reset URL. *)
Variable mailer : string → string → Outcome unit.

Definition perform {A} (ev : Effect) (o : Outcome A) : Expr (W:=list Effect) A :=
  λ log, (o, (log ++ [ev])%list).

Definition new_URL (s : string) : Expr (W:=list Effect) URL :=
  settle (match URL_parse s with
          | Some u => Resolves u
          | None => Rejects (ThrownError "TypeError" "Invalid URL")
          end).

Definition console_error {R} (msg : option string) : Stmt (W:=list Effect) R :=
  λ log, (Normal, (log ++ [ConsoleError msg])%list).

(** [UserAccount.sendResetPasswordEmail] *)
Definition sendResetPasswordEmail (email : string) : Expr (W:=list Effect) unit :=
  async ()
    (try_catch
       (await firebaseResetLink ←
          perform (GeneratePasswordResetLink email) (generatePasswordResetLink email) ;;
        await firebaseResetUrl ← new_URL firebaseResetLink ;;
        let oobCode := sp_get "oobCode" (searchParams firebaseResetUrl) in
        when (negb (truthy oobCode)) (ret ()) ;;;
        let oobCode := default "" oobCode in
        await passwordResetUrl ← new_URL (appUrl +:+ "/auth/reset-password") ;;
        let passwordResetUrl := url_set "oobCode" oobCode passwordResetUrl in
        let passwordResetUrl := url_set "email" email passwordResetUrl in
        await _ ←
          perform (SendResetPasswordEmail email (URL_toString passwordResetUrl))
                  (mailer email (URL_toString passwordResetUrl)) ;;
        skip)
       (λ _error, console_error (message _error) ;;; ret ())).

End SendResetPasswordEmail.

(** *** [URLSearchParams] facts *)

Lemma sp_get_delete_ne name name' l :
  name ≠ name' → sp_get name' (sp_delete name l) = sp_get name' l.
Proof.
  intros Hne. induction l as [|[n v] l IH]; [done|].
  unfold sp_delete in *.
  rewrite (filter_cons (λ p : string * string, p.1 ≠ name)). cbn [fst sp_get].
  case_decide as Hn; cbn [sp_get].
  - destruct (String.eqb n name'); [done|]. exact IH.
  - simpl in Hn. subst n.
    destruct (String.eqb_spec name name'); [done|]. exact IH.
Qed.

Lemma sp_get_set_eq name value l : sp_get name (sp_set name value l) = Some value.
Proof.
  induction l as [|[n v] l IH]; simpl.
  - by rewrite String.eqb_refl.
  - destruct (String.eqb_spec n name) as [->|Hne]; simpl.
    + by rewrite String.eqb_refl.
    + by destruct (String.eqb_spec n name).
Qed.

Lemma sp_get_set_ne name name' value l :
  name ≠ name' → sp_get name' (sp_set name value l) = sp_get name' l.
Proof.
  intros Hne. induction l as [|[n v] l IH]; simpl.
  - by destruct (String.eqb_spec name name').
  - destruct (String.eqb_spec n name) as [->|Hn]; simpl.
    + destruct (String.eqb_spec name name'); [done|].
      by apply sp_get_delete_ne.
    + destruct (String.eqb_spec n name'); [done|]. exact IH.
Qed.

Lemma emails_snoc (log : list Effect) (ev : Effect) :
  emails (log ++ [ev])%list =
    (emails log ++ match ev with
                   | SendResetPasswordEmail email url => [(email, url)]
                   | _ => []
                   end)%list.
Proof. unfold emails. rewrite omap_app. by destruct ev. Qed.

Ltac norm_emails := rewrite ?emails_snoc; simpl; rewrite ?app_nil_r.

(** C10. [sendResetPasswordEmail] always resolves (nothing it
    calls can make it reject).  When link generation fails, or the
    generated link has no (non-empty) [oobCode] parameter, no
    reset-password e-mail is handed to the mailer; otherwise, the app URL
    being a valid URL, exactly one is, for the given address and with a
    URL whose [oobCode] parameter is the link's code and whose [email]
    parameter is the address. *)
Theorem sendResetPasswordEmail_spec
    (generatePasswordResetLink : string → Outcome string)
    (URL_parse : string → option URL) (URL_toString : URL → string)
    (appUrl : string) (mailer : string → string → Outcome unit)
    (email : string) (log : list Effect) :
  ∃ log',
    sendResetPasswordEmail generatePasswordResetLink URL_parse URL_toString
      appUrl mailer email log = (Resolves (), log')
    ∧ (∀ e, generatePasswordResetLink email = Rejects e → emails log' = emails log)
    ∧ (∀ link u, generatePasswordResetLink email = Resolves link →
         URL_parse link = Some u →
         truthy (sp_get "oobCode" (searchParams u)) = false →
         emails log' = emails log)
    ∧ (∀ link, generatePasswordResetLink email = Resolves link →
         URL_parse link = None → emails log' = emails log)
    ∧ (∀ link u oobCode base, generatePasswordResetLink email = Resolves link →
         URL_parse link = Some u →
         sp_get "oobCode" (searchParams u) = Some oobCode → oobCode ≠ "" →
         URL_parse (appUrl +:+ "/auth/reset-password") = Some base →
         ∃ url, emails log' = (emails log ++ [(email, URL_toString url)])%list
                ∧ url_base url = url_base base
                ∧ sp_get "oobCode" (searchParams url) = Some oobCode
                ∧ sp_get "email" (searchParams url) = Some email).
Proof.
  unfold sendResetPasswordEmail, async, try_catch, bind_await, seq, when,
    perform, new_URL, settle, console_error, ret, skip.
  destruct (generatePasswordResetLink email) as [link|e0] eqn:Hgen.
  2:{ eexists. split; [reflexivity|]. norm_emails.
      split_and!; [done|..]; intros; simplify_eq. }
  destruct (URL_parse link) as [u|] eqn:Hu.
  2:{ eexists. split; [reflexivity|]. norm_emails.
      split_and!; [done| |done|]; intros; simplify_eq. }
  destruct (sp_get "oobCode" (searchParams u)) as [c|] eqn:Hc; simpl.
  2:{ eexists. split; [reflexivity|]. norm_emails.
      split_and!; [done|done| |]; intros; simplify_eq. }
  destruct (String.eqb_spec c "") as [->|Hne]; simpl.
  { eexists. split; [reflexivity|]. norm_emails.
    split_and!; [done|done| |]; intros; simplify_eq. }
  assert (∀ link0 u0, Resolves link = Resolves link0 → URL_parse link0 = Some u0 →
            truthy (sp_get "oobCode" (searchParams u0)) = false → False) as Hnot.
  { intros ?? ? ? Hf. simplify_eq. rewrite Hc in Hf. simpl in Hf.
    by destruct (String.eqb_spec c ""). }
  destruct (URL_parse (appUrl +:+ "/auth/reset-password")) as [base|] eqn:Hb.
  2:{ eexists. split; [reflexivity|].
      split_and!; [done|by intros; exfalso; eauto|..]; intros; simplify_eq. }
  set (url := url_set "email" email (url_set "oobCode" c base)).
  assert (sp_get "oobCode" (searchParams url) = Some c) as Hget1.
  { unfold url, url_set. simpl. rewrite sp_get_set_ne by done. apply sp_get_set_eq. }
  assert (sp_get "email" (searchParams url) = Some email) as Hget2.
  { unfold url, url_set. simpl. apply sp_get_set_eq. }
  destruct (mailer email (URL_toString url)) as [[]|e1]; eexists;
    (split; [reflexivity|]); norm_emails;
    (split_and!; [done|by intros; exfalso; eauto|by intros; simplify_eq|]);
    intros; simplify_eq; exists url; done.
Qed.

(** *** The scenarios of the test suite, with the suite's mocks *)

Definition mockParse (s : string) : option URL :=
  if String.eqb s "https://firebase.app/auth?mode=resetPassword&oobCode=my-code"
  then Some (mkURL "https://firebase.app/auth"
               [("mode", "resetPassword"); ("oobCode", "my-code")])
  else if String.eqb s "https://firebase.app/auth?mode=resetPassword"
  then Some (mkURL "https://firebase.app/auth" [("mode", "resetPassword")])
  else if String.eqb s "http://127.0.0.1:3000/auth/reset-password"
  then Some (mkURL "http://127.0.0.1:3000/auth/reset-password" [])
  else None.

(** Serialisation without percent-encoding. *)
Definition mockToString (u : URL) : string :=
  url_base u +:+
  match searchParams u with
  | [] => ""
  | q => "?" +:+ String.concat "&" ((λ p, p.1 +:+ "=" +:+ p.2) <$> q)
  end.

(** 'sends a reset password email' *)
Example reset_email_sent :
  sendResetPasswordEmail
    (λ _, Resolves "https://firebase.app/auth?mode=resetPassword&oobCode=my-code")
    mockParse mockToString "http://127.0.0.1:3000" (λ _ _, Resolves ())
    "foo@example.com" []
  = (Resolves (),
     [GeneratePasswordResetLink "foo@example.com";
      SendResetPasswordEmail "foo@example.com"
        "http://127.0.0.1:3000/auth/reset-password?oobCode=my-code&email=foo@example.com"]).
Proof. vm_compute. reflexivity. Qed.

(** 'does nothing if no oobCode returned by firebase' *)
Example reset_email_no_oobCode :
  sendResetPasswordEmail
    (λ _, Resolves "https://firebase.app/auth?mode=resetPassword")
    mockParse mockToString "http://127.0.0.1:3000" (λ _ _, Resolves ())
    "foo@example.com" []
  = (Resolves (), [GeneratePasswordResetLink "foo@example.com"]).
Proof. vm_compute. reflexivity. Qed.

(** 'does nothing if firebase fails to generate the email link' *)
Example reset_email_firebase_fails :
  sendResetPasswordEmail
    (λ _, Rejects (ThrownValue "User account does not exist"))
    mockParse mockToString "http://127.0.0.1:3000" (λ _ _, Resolves ())
    "foo@example.com" []
  = (Resolves (), [GeneratePasswordResetLink "foo@example.com"; ConsoleError None]).
Proof. vm_compute. reflexivity. Qed.

End ResetPassword.

(** ** The cookie session: [getSessionUserId] and [destroySession] *)

Module SessionAuth.

(** The data of a cookie session: [session.get(key)] is a lookup. *)
Abbreviation Session := (gmap string string).

Record Request := mkRequest {
  req_cookie : option string;   (* request.headers.get('cookie') *)
  req_pathname : string;        (* new URL(request.url).pathname *)
}.

(** Firebase's decoded session token, by the claim the code reads. *)
Record DecodedIdToken := mkToken { token_uid : string }.

(** Calls that leave the process, in order. *)
Inductive Call :=
| VerifySessionCookie (jwt : string)
| StorageDestroySession (session : Session).

(** [redirect(url, { headers: { 'Set-Cookie': cookie } })] *)
Definition redirect (url : string) (setCookie : option string) : Response :=
  mkResponse 302 url setCookie.

Section Session.

(** The cookie session storage: reading the session out of the cookie
    header, and the [Set-Cookie] value that clears it. *)
Variable storage_getSession : option string → Session.
Variable storage_destroySession : Session → string.
(** Firebase Admin's [auth.verifySessionCookie(jwt, true)]. *)
Variable verifySessionCookie : string → Outcome DecodedIdToken.

Abbreviation Expr := (Expr (W:=list Call)).
Abbreviation Stmt := (Stmt (W:=list Call)).

Definition call {A} (c : Call) (o : Outcome A) : Expr A :=
  λ log, (o, (log ++ [c])%list).

(** [getSession] *)
Definition getSession (request : Request) : Expr Session :=
  async ∅ (ret (storage_getSession (req_cookie request))).

(** [destroySession]: never resolves, it throws the redirect to [/] that
    carries the cleared cookie. *)
Definition destroySession (request : Request) : Expr unit :=
  async ()
    (await session ← getSession request ;;
     await cookie ← call (StorageDestroySession session)
                      (Resolves (storage_destroySession session)) ;;
     throw (ThrownResponse (redirect "/" (Some cookie)))).

(** [await destroySession(request);] as a statement. *)
Definition await_destroySession {R} (request : Request) : Stmt R :=
  await _ ← destroySession request ;; skip.

(** [getSessionUserId] *)
Definition getSessionUserId (request : Request) : Expr (option string) :=
  async None
    (await session ← getSession request ;;
     let jwt := session !! "jwt" in
     let uid := session !! "uid" in
     let userId := session !! "userId" in
     when (negb (truthy jwt) || negb (truthy uid) || negb (truthy userId))
       (ret None) ;;;
     try_catch
       (await token ← call (VerifySessionCookie (default "" jwt))
                        (verifySessionCookie (default "" jwt)) ;;
        if decide (default "" uid = token_uid token)
        then ret userId
        else await_destroySession request)
       (λ _error, await_destroySession request) ;;;
     ret None).

(** The serialiser of [URLSearchParams] (its [toString], which
    percent-encodes names and values). *)
Variable URLSearchParams_toString : list (string * string) → string.

(** [requireSession] *)
Definition requireSession (request : Request) : Expr string :=
  async ""
    (await userId ← getSessionUserId request ;;
     when (negb (truthy userId))
       (let redirectTo := req_pathname request in
        let searchParams := URLSearchParams_toString [("redirectTo", redirectTo)] in
        throw (ThrownResponse (redirect ("/auth/login?" +:+ searchParams) None))) ;;;
     ret (default "" userId)).

End Session.

Lemma truthy_Some v : truthy v = true → ∃ s, v = Some s ∧ s ≠ "".
Proof.
  destruct v as [s|]; simpl; [|done].
  intros H. exists s. split; [done|]. intros ->. by simpl in H.
Qed.

Lemma truthy_intro s : s ≠ "" → truthy (Some s) = true.
Proof. intros H. simpl. by destruct (String.eqb_spec s ""). Qed.

(** [destroySession] always rejects, with the redirect to [/] that clears
    the cookie. *)
Lemma destroySession_throws (storage_getSession : option string → Session)
    (storage_destroySession : Session → string) (request : Request) (log : list Call) :
  destroySession storage_getSession storage_destroySession request log =
    (Rejects (ThrownResponse
                (redirect "/" (Some (storage_destroySession
                                       (storage_getSession (req_cookie request)))))),
     (log ++ [StorageDestroySession (storage_getSession (req_cookie request))])%list).
Proof. reflexivity. Qed.

Lemma await_destroySession_throws {R} (storage_getSession : option string → Session)
    (storage_destroySession : Session → string) (request : Request) (log : list Call) :
  await_destroySession (R:=R) storage_getSession storage_destroySession request log =
    (Throw (ThrownResponse
              (redirect "/" (Some (storage_destroySession
                                     (storage_getSession (req_cookie request)))))),
     (log ++ [StorageDestroySession (storage_getSession (req_cookie request))])%list).
Proof. reflexivity. Qed.

(** *** A session whose uid is not the verified token's *)

Definition staleSession : Session :=
  <["jwt" := "jwt-1"]> (<["uid" := "uid-A"]> (<["userId" := "user-1"]> ∅)).

Definition staleRequest : Request := mkRequest (Some "__session=stale") "/speaker".

(** C9, as stated, fails: with [jwt], [uid] and [userId] all in the
    session and a token that verifies for another uid, the call does not
    resolve to [null]; it rejects with the redirect thrown by
    [destroySession]. *)
Lemma getSessionUserId_uid_mismatch_rejects :
  staleSession !! "jwt" = Some "jwt-1" ∧ staleSession !! "uid" = Some "uid-A" ∧
  staleSession !! "userId" = Some "user-1" ∧
  getSessionUserId (λ _, staleSession) (λ _, "__session=; Max-Age=0")
    (λ _, Resolves (mkToken "uid-B")) staleRequest []
  = (Rejects (ThrownResponse (redirect "/" (Some "__session=; Max-Age=0"))),
     [VerifySessionCookie "jwt-1"; StorageDestroySession staleSession;
      StorageDestroySession staleSession])
  ∧ (getSessionUserId (λ _, staleSession) (λ _, "__session=; Max-Age=0")
       (λ _, Resolves (mkToken "uid-B")) staleRequest []).1 ≠ Resolves None.
Proof. split_and!; [reflexivity..|]. vm_compute. discriminate. Qed.

(** The same when the cookie does not verify. *)
Example getSessionUserId_verification_fails_rejects :
  getSessionUserId (λ _, staleSession) (λ _, "__session=; Max-Age=0")
    (λ _, Rejects (ThrownError "FirebaseAuthError" "auth/session-cookie-expired"))
    staleRequest []
  = (Rejects (ThrownResponse (redirect "/" (Some "__session=; Max-Age=0"))),
     [VerifySessionCookie "jwt-1"; StorageDestroySession staleSession]).
Proof. reflexivity. Qed.

Example getSessionUserId_valid :
  getSessionUserId (λ _, staleSession) (λ _, "__session=; Max-Age=0")
    (λ _, Resolves (mkToken "uid-A")) staleRequest []
  = (Resolves (Some "user-1"), [VerifySessionCookie "jwt-1"]).
Proof. reflexivity. Qed.

Example getSessionUserId_no_session :
  getSessionUserId (λ _, ∅) (λ _, "__session=; Max-Age=0")
    (λ _, Resolves (mkToken "uid-A")) (mkRequest None "/") []
  = (Resolves None, []).
Proof. reflexivity. Qed.

(** C9, amended. [getSessionUserId] resolves to a user id only when
    the session holds (non-empty) [jwt], [uid] and [userId], the jwt
    verifies and the verified token's uid is the session's, and then the
    id is the session's [userId].  It resolves to [null] exactly when one
    of the three is missing, and touches nothing then.  When all three
    are there but verification fails or the uids differ, it does not
    resolve: it rejects with the redirect to [/] whose [Set-Cookie] clears
    the session. *)
Theorem getSessionUserId_spec
    (storage_getSession : option string → Session)
    (storage_destroySession : Session → string)
    (verifySessionCookie : string → Outcome DecodedIdToken)
    (request : Request) (log : list Call) :
  let session := storage_getSession (req_cookie request) in
  let result := getSessionUserId storage_getSession storage_destroySession
                  verifySessionCookie request log in
  let cleared := ThrownResponse (redirect "/" (Some (storage_destroySession session))) in
  (∀ id, result.1 = Resolves (Some id) →
     session !! "userId" = Some id ∧ id ≠ "" ∧
     ∃ jwt uid token, session !! "jwt" = Some jwt ∧ jwt ≠ "" ∧
       session !! "uid" = Some uid ∧ uid ≠ "" ∧
       verifySessionCookie jwt = Resolves token ∧ uid = token_uid token)
  ∧ (truthy (session !! "jwt") && truthy (session !! "uid")
       && truthy (session !! "userId") = false →
     result = (Resolves None, log))
  ∧ (∀ jwt uid userId,
       session !! "jwt" = Some jwt → jwt ≠ "" →
       session !! "uid" = Some uid → uid ≠ "" →
       session !! "userId" = Some userId → userId ≠ "" →
       match verifySessionCookie jwt with
       | Resolves token =>
           if decide (uid = token_uid token)
           then result = (Resolves (Some userId), (log ++ [VerifySessionCookie jwt])%list)
           else result = (Rejects cleared,
                          (log ++ [VerifySessionCookie jwt; StorageDestroySession session;
                                   StorageDestroySession session])%list)
       | Rejects _ =>
           result = (Rejects cleared,
                     (log ++ [VerifySessionCookie jwt; StorageDestroySession session])%list)
       end).
Proof.
  intros session result cleared.
  assert (truthy (session !! "jwt") && truthy (session !! "uid")
            && truthy (session !! "userId") = false → result = (Resolves None, log))
    as Hmissing.
  { intros Hf. subst result. unfold getSessionUserId, async, bind_await, seq, getSession, ret.
    simpl. fold session.
    apply andb_false_iff in Hf as [Hf|Hf]; [apply andb_false_iff in Hf as [Hf|Hf]|];
      rewrite Hf; simpl; rewrite ?orb_true_r; reflexivity. }
  assert (∀ jwt uid userId,
       session !! "jwt" = Some jwt → jwt ≠ "" →
       session !! "uid" = Some uid → uid ≠ "" →
       session !! "userId" = Some userId → userId ≠ "" →
       match verifySessionCookie jwt with
       | Resolves token =>
           if decide (uid = token_uid token)
           then result = (Resolves (Some userId), (log ++ [VerifySessionCookie jwt])%list)
           else result = (Rejects cleared,
                          (log ++ [VerifySessionCookie jwt; StorageDestroySession session;
                                   StorageDestroySession session])%list)
       | Rejects _ =>
           result = (Rejects cleared,
                     (log ++ [VerifySessionCookie jwt; StorageDestroySession session])%list)
       end) as Hall.
  { intros jwt uid userId Hj Hjne Hu Hune Hi Hine. subst result.
    unfold getSessionUserId, async, bind_await, seq, getSession, ret, try_catch, call,
      when, skip.
    simpl. fold session. rewrite Hj, Hu, Hi.
    rewrite !truthy_intro by done. simpl.
    destruct (verifySessionCookie jwt) as [token|e]; simpl.
    - destruct (decide (uid = token_uid token)); [reflexivity|].
      cbv [await_destroySession destroySession async bind_await getSession ret call
           throw skip].
      fold session. by rewrite <- !app_assoc.
    - cbv [await_destroySession destroySession async bind_await getSession ret call
           throw skip].
      fold session. by rewrite <- !app_assoc. }
  split_and!; [|exact Hmissing|exact Hall].
  intros id Hid.
  destruct (truthy (session !! "jwt")) eqn:Tj;
    [|by rewrite Hmissing in Hid].
  destruct (truthy (session !! "uid")) eqn:Tu;
    [|by rewrite Hmissing in Hid].
  destruct (truthy (session !! "userId")) eqn:Ti;
    [|by rewrite Hmissing in Hid].
  apply truthy_Some in Tj as (jwt & Hj & Hjne).
  apply truthy_Some in Tu as (uid & Hu & Hune).
  apply truthy_Some in Ti as (userId & Hi & Hine).
  specialize (Hall jwt uid userId Hj Hjne Hu Hune Hi Hine).
  destruct (verifySessionCookie jwt) as [token|e] eqn:Hv.
  - destruct (decide (uid = token_uid token)) as [Heq|Hne].
    + rewrite Hall in Hid. simpl in Hid. simplify_eq.
      split_and!; [done..|]. exists jwt, (token_uid token), token. done.
    + by rewrite Hall in Hid.
  - by rewrite Hall in Hid.
Qed.

End SessionAuth.

(** ** The event-integrations route:
       [app/routes/team+/$team.$event+/settings+/integrations.tsx] *)

Module Integrations.

(** [FormData]: ordered entries whose values are strings or files. *)
Inductive FormDataEntryValue :=
| FormString (s : string)
| FormFile (filename : string).

Abbreviation FormData := (list (string * FormDataEntryValue)).

(** [form.get(name)]: the first value under [name], or [null]. *)
Definition form_get (name : string) (form : FormData) : option FormDataEntryValue :=
  (λ hit, hit.2.2) <$> list_find (λ p, p.1 = name) form.

Record Request := mkRequest {
  req_cookie : option string;
  req_formData : FormData;
}.

Record Params := mkParams { team : string; event : string }.

(** The result of [parseWithZod]: [status === 'success'] with the parsed
    value, or the field errors. *)
Inductive Submission (V E : Type) :=
| Success (value : V)
| Failure (error : E).
Arguments Success {V E} value.
Arguments Failure {V E} error.

(** The value of [OpenPlannerConfigSchema]: the two inputs of the form. *)
Record OpenPlannerConfig := mkConfig { eventId : string; apiKey : string }.

(** [{ id, name: 'OPEN_PLANNER', configuration }] *)
Record IntegrationData := mkData {
  data_id : option string;
  data_name : string;
  data_configuration : OpenPlannerConfig;
}.

(** [checkConfiguration]'s answer, read as [result?.success] and
    [result?.error]. *)
Record CheckResult := mkCheck { success : bool; error : option string }.

Inductive ToastKind := toast_success | toast_error.

Section Action.

(** The settings value of [EventSlackSettingsSchema] and the field
    errors of a failed submission. *)
Variable SlackSettings : Type.
Variable FieldErrors : Type.

(** What the action returns. *)
Inductive ActionResult :=
| ValidationError (error : FieldErrors)
| Toast (kind : ToastKind) (message : string)
| Null.

(** What the action asks of the domain services, in order. *)
Inductive ServiceCall :=
| UserEvent_update (userId team event : string) (value : SlackSettings)
| EventIntegrations_save (userId team event : string) (data : IntegrationData)
| EventIntegrations_checkConfiguration (userId team event : string) (data : IntegrationData)
| EventIntegrations_delete (userId team event : string) (id : string).

(** [requireUserSession(request)] of [~/libs/auth/session.ts]. *)
Variable requireUserSession : Request → Outcome string.

(** [parseWithZod(form, { schema })] for the four schemas of the route:
    [EventSlackSettingsSchema], [z.object({ id: z.string().optional() })],
    [z.object({ id: z.string() })] and [OpenPlannerConfigSchema]. *)
Variable parseSlackSettings : FormData → Submission SlackSettings FieldErrors.
Variable parseOptionalId : FormData → Submission (option string) FieldErrors.
Variable parseId : FormData → Submission string FieldErrors.
Variable parseOpenPlannerConfig : FormData → Submission OpenPlannerConfig FieldErrors.

(** How each service call settles. *)
Variable update_outcome : string → string → string → SlackSettings → Outcome unit.
Variable save_outcome : string → string → string → IntegrationData → Outcome unit.
Variable check_outcome : string → string → string → IntegrationData → Outcome (option CheckResult).
Variable delete_outcome : string → string → string → string → Outcome unit.

Definition service {A} (c : ServiceCall) (o : Outcome A) : Expr (W:=list ServiceCall) A :=
  λ log, (o, (log ++ [c])%list).

(** [intent === s] in the [switch]. *)
Definition is_intent (intent : option FormDataEntryValue) (s : string) : bool :=
  match intent with
  | Some (FormString i) => String.eqb i s
  | _ => false
  end.

(** [toast(kind, message)] *)
Definition toast (kind : ToastKind) (message : string) : ActionResult := Toast kind message.

(** [action] *)
Definition action (request : Request) (params : Params)
  : Expr (W:=list ServiceCall) ActionResult :=
  async Null
    (await userId ← settle (requireUserSession request) ;;
     let form := req_formData request in
     let intent := form_get "intent" form in
     (if is_intent intent "save-slack-integration" then
        match parseSlackSettings form with
        | Failure error => ret (ValidationError error)
        | Success value =>
            await _ ← service (UserEvent_update userId (team params) (event params) value)
                        (update_outcome userId (team params) (event params) value) ;;
            skip
        end
      else if is_intent intent "save-open-planner-integration" then
        match parseOptionalId form with
        | Failure _ => ret (toast toast_error "Something went wrong.")
        | Success id =>
            match parseOpenPlannerConfig form with
            | Failure error => ret (ValidationError error)
            | Success configuration =>
                let data := mkData id "OPEN_PLANNER" configuration in
                await _ ← service (EventIntegrations_save userId (team params) (event params) data)
                            (save_outcome userId (team params) (event params) data) ;;
                ret (toast toast_success "OpenPlanner integration is enabled.")
            end
        end
      else if is_intent intent "check-open-planner-integration" then
        match parseOptionalId form with
        | Failure _ => ret (toast toast_error "Something went wrong.")
        | Success id =>
            match parseOpenPlannerConfig form with
            | Failure error => ret (ValidationError error)
            | Success configuration =>
                let data := mkData id "OPEN_PLANNER" configuration in
                await result ←
                  service (EventIntegrations_checkConfiguration userId (team params) (event params) data)
                    (check_outcome userId (team params) (event params) data) ;;
                when (negb (default false (success <$> result)))
                  (ret (toast toast_error
                          ("OpenPlanner issue: " +:+ default "undefined" (result ≫= error)))) ;;;
                ret (toast toast_success "OpenPlanner integration is working.")
            end
        end
      else if is_intent intent "disable-integration" then
        match parseId form with
        | Failure _ => ret (toast toast_error "Something went wrong.")
        | Success id =>
            await _ ← service (EventIntegrations_delete userId (team params) (event params) id)
                        (delete_outcome userId (team params) (event params) id) ;;
            ret (toast toast_success "OpenPlanner integration is disabled.")
        end
      else skip) ;;;
     ret Null).

End Action.

Arguments ValidationError {FieldErrors} error.
Arguments Toast {FieldErrors} kind message.
Arguments Null {FieldErrors}.
Arguments UserEvent_update {SlackSettings} userId team event value.
Arguments EventIntegrations_save {SlackSettings} userId team event data.
Arguments EventIntegrations_checkConfiguration {SlackSettings} userId team event data.
Arguments EventIntegrations_delete {SlackSettings} userId team event id.

(** The intents the [switch] knows. *)
Definition intents : list string :=
  ["save-slack-integration"; "save-open-planner-integration";
   "check-open-planner-integration"; "disable-integration"].

Lemma is_intent_true intent s :
  is_intent intent s = true ↔ intent = Some (FormString s).
Proof.
  destruct intent as [[i|f]|]; simpl; [|done..].
  destruct (String.eqb_spec i s); naive_solver.
Qed.

Lemma is_intent_false intent s :
  intent ≠ Some (FormString s) → is_intent intent s = false.
Proof.
  intros H. destruct (is_intent intent s) eqn:E; [|done].
  by apply is_intent_true in E.
Qed.

(** *** Test doubles for the parsers and services *)

(** A reading of [z.object({ id: z.string().optional() })] on a form: an
    absent or empty field is [undefined], a file is not a string. *)
Definition mockOptionalId (form : FormData) : Submission (option string) string :=
  match form_get "id" form with
  | None => Success None
  | Some (FormString s) => if String.eqb s "" then Success None else Success (Some s)
  | Some (FormFile _) => Failure "id: Expected string, received object"
  end.

Definition mockId (form : FormData) : Submission string string :=
  match form_get "id" form with
  | Some (FormString s) => if String.eqb s "" then Failure "id: Required" else Success s
  | Some (FormFile _) => Failure "id: Expected string, received object"
  | None => Failure "id: Required"
  end.

Definition mockConfig (form : FormData) : Submission OpenPlannerConfig string :=
  match form_get "eventId" form, form_get "apiKey" form with
  | Some (FormString e), Some (FormString k) =>
      if String.eqb e "" then Failure "eventId: Required"
      else if String.eqb k "" then Failure "apiKey: Required"
      else Success (mkConfig e k)
  | Some (FormString _), _ => Failure "apiKey: Required"
  | _, _ => Failure "eventId: Required"
  end.

Definition mockSlack (form : FormData) : Submission string string :=
  match form_get "slackWebhookUrl" form with
  | Some (FormString u) => Success u
  | _ => Failure "slackWebhookUrl: Required"
  end.

Definition mockAction (request : Request) (params : Params) :=
  action string string (λ _, Resolves "user-1") mockSlack mockOptionalId mockId mockConfig
    (λ _ _ _ _, Resolves ()) (λ _ _ _ _, Resolves ())
    (λ _ _ _ _, Resolves (Some (mkCheck true None))) (λ _ _ _ _, Resolves ())
    request params.

Definition devfest : Params := mkParams "gdg-nantes" "devfest-nantes".

(** A form posted with an uploaded file under [id] and no configuration. *)
Definition badIdForm : FormData :=
  [("intent", FormString "save-open-planner-integration");
   ("id", FormFile "id.txt")].

(** C8, as stated, fails: here the configuration does not pass
    [OpenPlannerConfigSchema], yet the action does not return the
    validation error; the id is checked first and the action returns the
    error toast. *)
Lemma action_invalid_config_returns_toast :
  mockConfig badIdForm = Failure "eventId: Required" ∧
  mockAction (mkRequest None badIdForm) devfest [] =
    (Resolves (Toast toast_error "Something went wrong."), []) ∧
  ∀ e, (mockAction (mkRequest None badIdForm) devfest []).1 ≠ Resolves (ValidationError e).
Proof. split_and!; [reflexivity..|]. intros e. vm_compute. discriminate. Qed.

Example action_save_open_planner :
  mockAction (mkRequest None
     [("intent", FormString "save-open-planner-integration");
      ("eventId", FormString "evt"); ("apiKey", FormString "key"); ("id", FormString "")])
    devfest []
  = (Resolves (Toast toast_success "OpenPlanner integration is enabled."),
     [EventIntegrations_save "user-1" "gdg-nantes" "devfest-nantes"
        (mkData None "OPEN_PLANNER" (mkConfig "evt" "key"))]).
Proof. reflexivity. Qed.

Example action_save_invalid :
  mockAction (mkRequest None
     [("intent", FormString "save-open-planner-integration");
      ("eventId", FormString ""); ("apiKey", FormString "key")])
    devfest []
  = (Resolves (ValidationError "eventId: Required"), []).
Proof. reflexivity. Qed.

Example action_disable_missing_id :
  mockAction (mkRequest None [("intent", FormString "disable-integration")]) devfest []
  = (Resolves (Toast toast_error "Something went wrong."), []).
Proof. reflexivity. Qed.

Example action_unknown_intent :
  mockAction (mkRequest None [("intent", FormString "export")]) devfest []
  = (Resolves Null, []).
Proof. reflexivity. Qed.

Section ActionFacts.

Context {SlackSettings FieldErrors : Type}.
Variable requireUserSession : Request → Outcome string.
Variable parseSlackSettings : FormData → Submission SlackSettings FieldErrors.
Variable parseOptionalId : FormData → Submission (option string) FieldErrors.
Variable parseId : FormData → Submission string FieldErrors.
Variable parseOpenPlannerConfig : FormData → Submission OpenPlannerConfig FieldErrors.
Variable update_outcome : string → string → string → SlackSettings → Outcome unit.
Variable save_outcome : string → string → string → IntegrationData → Outcome unit.
Variable check_outcome : string → string → string → IntegrationData → Outcome (option CheckResult).
Variable delete_outcome : string → string → string → string → Outcome unit.

Local Abbreviation act := (action SlackSettings FieldErrors requireUserSession
  parseSlackSettings parseOptionalId parseId parseOpenPlannerConfig update_outcome
  save_outcome check_outcome delete_outcome).

(** Without a session the action rejects before it reads the form. *)
Lemma action_no_session request params log e :
  requireUserSession request = Rejects e →
  act request params log = (Rejects e, log).
Proof.
  intros H. unfold action, async, bind_await, settle. by rewrite H.
Qed.

(** C8, amended. For a request with a session, the action checks
    the form against the schemas of its intent before it calls a service:
    - [save-slack-integration]: settings that fail their schema give the
      validation error and no update; otherwise [update] is called once
      and the action returns [null];
    - [save-open-planner-integration]: an [id] field that fails its
      schema gives the error toast and nothing is saved; otherwise a
      configuration that fails [OpenPlannerConfigSchema] gives the
      validation error and nothing is saved; otherwise [save] is called
      once with [{ id, 'OPEN_PLANNER', configuration }] and the action
      returns the success toast when [save] resolves (and rejects as
      [save] does otherwise);
    - [check-open-planner-integration]: the same two checks, then
      [checkConfiguration] is called once;
    - [disable-integration]: an [id] that fails its schema, as a missing
      one does, gives the error toast and nothing is deleted; otherwise
      [delete] is called once with the id;
    - an intent the [switch] does not know gives [null], with no service
      call. *)
Theorem action_spec (request : Request) (params : Params) (userId : string)
    (log : list (ServiceCall SlackSettings)) :
  requireUserSession request = Resolves userId →
  let form := req_formData request in
  let result := act request params log in
  (form_get "intent" form = Some (FormString "save-slack-integration") →
     match parseSlackSettings form with
     | Failure error => result = (Resolves (ValidationError error), log)
     | Success value =>
         result =
           (match update_outcome userId (team params) (event params) value with
            | Resolves _ => Resolves Null
            | Rejects e => Rejects e
            end,
            (log ++ [UserEvent_update userId (team params) (event params) value])%list)
     end)
  ∧ (form_get "intent" form = Some (FormString "check-open-planner-integration") →
     match parseOptionalId form with
     | Failure _ => result = (Resolves (Toast toast_error "Something went wrong."), log)
     | Success id =>
         match parseOpenPlannerConfig form with
         | Failure error => result = (Resolves (ValidationError error), log)
         | Success configuration =>
             let data := mkData id "OPEN_PLANNER" configuration in
             result.2 =
               (log ++ [EventIntegrations_checkConfiguration userId (team params)
                          (event params) data])%list
         end
     end)
  ∧ (form_get "intent" form = Some (FormString "save-open-planner-integration") →
     match parseOptionalId form with
     | Failure _ => result = (Resolves (Toast toast_error "Something went wrong."), log)
     | Success id =>
         match parseOpenPlannerConfig form with
         | Failure error => result = (Resolves (ValidationError error), log)
         | Success configuration =>
             let data := mkData id "OPEN_PLANNER" configuration in
             result =
               (match save_outcome userId (team params) (event params) data with
                | Resolves _ =>
                    Resolves (Toast toast_success "OpenPlanner integration is enabled.")
                | Rejects e => Rejects e
                end,
                (log ++ [EventIntegrations_save userId (team params) (event params) data])%list)
         end
     end)
  ∧ (form_get "intent" form = Some (FormString "disable-integration") →
     match parseId form with
     | Failure _ => result = (Resolves (Toast toast_error "Something went wrong."), log)
     | Success id =>
         result =
           (match delete_outcome userId (team params) (event params) id with
            | Resolves _ =>
                Resolves (Toast toast_success "OpenPlanner integration is disabled.")
            | Rejects e => Rejects e
            end,
            (log ++ [EventIntegrations_delete userId (team params) (event params) id])%list)
     end)
  ∧ ((∀ s, s ∈ intents → form_get "intent" form ≠ Some (FormString s)) →
     result = (Resolves Null, log)).
Proof.
  intros Hsession form result. subst result.
  unfold action, async, bind_await, settle, seq, service, ret, skip, when.
  rewrite Hsession. fold form. split_and!.
  - intros ->. simpl.
    destruct (parseSlackSettings form) as [value|]; [|reflexivity].
    by destruct (update_outcome _ _ _ _).
  - intros ->. simpl.
    destruct (parseOptionalId form) as [id|]; [|reflexivity].
    destruct (parseOpenPlannerConfig form) as [configuration|]; [|reflexivity].
    simpl. destruct (check_outcome _ _ _ _) as [[[[] ?]|]|]; reflexivity.
  - intros ->. simpl.
    destruct (parseOptionalId form) as [id|]; [|reflexivity].
    destruct (parseOpenPlannerConfig form) as [configuration|]; [|reflexivity].
    simpl. by destruct (save_outcome _ _ _ _).
  - intros ->. simpl.
    destruct (parseId form) as [id|]; [|reflexivity].
    by destruct (delete_outcome _ _ _ _).
  - intros Hunknown.
    rewrite !is_intent_false; [reflexivity|apply Hunknown; unfold intents; set_solver..].
Qed.

End ActionFacts.

Lemma action_spec_witness :
  (λ _ : Request, Resolves "user-1") (mkRequest None badIdForm) = Resolves "user-1" ∧
  mockAction (mkRequest None badIdForm) devfest [] =
    (Resolves (Toast toast_error "Something went wrong."), []).
Proof.
  split; [reflexivity|].
  pose proof (action_spec (λ _, Resolves "user-1") mockSlack mockOptionalId mockId
                mockConfig (λ _ _ _ _, Resolves ()) (λ _ _ _ _, Resolves ())
                (λ _ _ _ _, Resolves (Some (mkCheck true None))) (λ _ _ _ _, Resolves ())
                (mkRequest None badIdForm) devfest "user-1" [] eq_refl)
    as (_ & _ & Hsave & _ & _).
  exact (Hsave eq_refl).
Defined.

End Integrations.

(** ** Speaker proposals: the service behind [speaker-proposal.server.test.ts]

    [speaker-proposal.server.ts] itself is not among the sources; its
    operations are modelled from the specification (authorization check,
    then guarded field updates on the row retrieved by primary key) and
    run against the scenarios of its test suite. *)

Module SpeakerProposals.

Inductive DeliberationStatus := PENDING | ACCEPTED | REJECTED.
Inductive PublicationStatus := NOT_PUBLISHED | PUBLISHED.
Inductive ConfirmationStatus := CONFIRMED | DECLINED.

#[export] Instance DeliberationStatus_eq_dec : EqDecision DeliberationStatus.
Proof. solve_decision. Defined.
#[export] Instance PublicationStatus_eq_dec : EqDecision PublicationStatus.
Proof. solve_decision. Defined.
#[export] Instance ConfirmationStatus_eq_dec : EqDecision ConfirmationStatus.
Proof. solve_decision. Defined.

(** Modelled from the spec: the proposal row (the Prisma schema is not in
    the sources), with the columns the test suite reads and writes. *)
Record Proposal := mkProposal {
  eventId : string;
  talkId : option string;
  title : string;
  abstract : string;
  level : option string;
  languages : list string;
  references : option string;
  formats : list string;
  categories : list string;
  speakers : list string;
  deliberationStatus : DeliberationStatus;
  publicationStatus : PublicationStatus;
  confirmationStatus : option ConfirmationStatus;
}.

(** Modelled from the spec: the talk a proposal was made from (schema not
    in the sources), with the fields [update] carries over. *)
Record Talk := mkTalk {
  talk_title : string;
  talk_abstract : string;
  talk_level : option string;
  talk_languages : list string;
  talk_references : option string;
  talk_speakers : list string;
}.

(** Modelled from the spec: the event of a proposal (schema not in the
    sources), by whether its call for papers is open when the service is
    called. *)
Record Event := mkEvent { isCfpOpen : bool }.

(** Modelled from the spec: the three tables, by primary key. *)
Record Db := mkDb {
  proposals : gmap string Proposal;
  talks : gmap string Talk;
  events : gmap string Event;
}.

(** The payload of [update]. *)
Record ProposalSaveData := mkSaveData {
  data_title : string;
  data_abstract : string;
  data_level : option string;
  data_languages : list string;
  data_references : option string;
  data_formats : list string;
  data_categories : list string;
}.

Definition ProposalNotFoundError : Thrown :=
  ThrownError "ProposalNotFoundError" "Proposal not found".
Definition CfpNotOpenError : Thrown :=
  ThrownError "CfpNotOpenError" "CFP not open".
Definition EventNotFoundError : Thrown :=
  ThrownError "EventNotFoundError" "Event not found".

Definition set_proposals (f : gmap string Proposal → gmap string Proposal) (db : Db) : Db :=
  mkDb (f (proposals db)) (talks db) (events db).

Definition set_talks (f : gmap string Talk → gmap string Talk) (db : Db) : Db :=
  mkDb (proposals db) (f (talks db)) (events db).

Definition with_data (data : ProposalSaveData) (p : Proposal) : Proposal :=
  mkProposal (eventId p) (talkId p) (data_title data) (data_abstract data)
    (data_level data) (data_languages data) (data_references data)
    (data_formats data) (data_categories data) (speakers p)
    (deliberationStatus p) (publicationStatus p) (confirmationStatus p).

Definition talk_with_data (data : ProposalSaveData) (t : Talk) : Talk :=
  mkTalk (data_title data) (data_abstract data) (data_level data)
    (data_languages data) (data_references data) (talk_speakers t).

Definition with_speakers (s : list string) (p : Proposal) : Proposal :=
  mkProposal (eventId p) (talkId p) (title p) (abstract p) (level p) (languages p)
    (references p) (formats p) (categories p) s
    (deliberationStatus p) (publicationStatus p) (confirmationStatus p).

Definition with_confirmation (c : option ConfirmationStatus) (p : Proposal) : Proposal :=
  mkProposal (eventId p) (talkId p) (title p) (abstract p) (level p) (languages p)
    (references p) (formats p) (categories p) (speakers p)
    (deliberationStatus p) (publicationStatus p) c.

Section SpeakerProposal.

(** [SpeakerProposal.for(speakerId, proposalId)] *)
Variable speakerId proposalId : string.

(** Modelled from the spec: the authorization read shared by the
    operations of [SpeakerProposal] (the class is not in the sources):
    the proposal row with this id, provided the calling speaker is one of
    its speakers. *)
Definition findProposal (db : Db) : option Proposal :=
  p ← proposals db !! proposalId;
  if decide (speakerId ∈ speakers p) then Some p else None.

(** Modelled from the spec: [SpeakerProposal.get] (not in the sources):
    the proposal of the calling speaker, or [ProposalNotFoundError]. *)
Definition get : Expr (W:=Db) Proposal :=
  λ db, match findProposal db with
        | Some p => (Resolves p, db)
        | None => (Rejects ProposalNotFoundError, db)
        end.

(** Modelled from the spec: [SpeakerProposal.update] (not in the
    sources): the authorization read, then the check that the event's
    call for papers is open, then the write of the given fields to the
    proposal and of the talk's fields to the related talk. *)
Definition update (data : ProposalSaveData) : Expr (W:=Db) unit :=
  λ db, match findProposal db with
        | None => (Rejects ProposalNotFoundError, db)
        | Some p =>
            match events db !! eventId p with
            | None => (Rejects EventNotFoundError, db)
            | Some ev =>
                if isCfpOpen ev then
                  let db := set_proposals (<[proposalId := with_data data p]>) db in
                  let db := match talkId p with
                            | Some t => set_talks (alter (talk_with_data data) t) db
                            | None => db
                            end in
                  (Resolves (), db)
                else (Rejects CfpNotOpenError, db)
            end
        end.

(** Modelled from the spec: [SpeakerProposal.removeCoSpeaker] (not in the
    sources): the authorization read, then the co-speaker is taken off the
    proposal's speakers. *)
Definition removeCoSpeaker (coSpeakerId : string) : Expr (W:=Db) unit :=
  λ db, match findProposal db with
        | None => (Rejects ProposalNotFoundError, db)
        | Some p =>
            (Resolves (),
             set_proposals
               (<[proposalId := with_speakers (filter (λ s, s ≠ coSpeakerId) (speakers p)) p]>)
               db)
        end.

(** Modelled from the spec: [SpeakerProposal.delete] (not in the
    sources): deletes the proposal when it is the calling speaker's, and
    resolves either way (the test suite expects no error). *)
Definition delete : Expr (W:=Db) unit :=
  λ db, match findProposal db with
        | None => (Resolves (), db)
        | Some _ => (Resolves (), set_proposals (base.delete proposalId) db)
        end.

(** Modelled from the spec: [SpeakerProposal.confirm] (not in the
    sources): the authorization read, then a field update guarded by the
    proposal being accepted and its result published. *)
Definition confirm (participation : ConfirmationStatus) : Expr (W:=Db) unit :=
  λ db, match findProposal db with
        | None => (Rejects ProposalNotFoundError, db)
        | Some p =>
            if decide (deliberationStatus p = ACCEPTED ∧ publicationStatus p = PUBLISHED)
            then (Resolves (),
                  set_proposals
                    (<[proposalId := with_confirmation (Some participation) p]>) db)
            else (Resolves (), db)
        end.

End SpeakerProposal.

(** *** The authorization read *)

Lemma findProposal_Some speakerId proposalId db p :
  findProposal speakerId proposalId db = Some p ↔
  proposals db !! proposalId = Some p ∧ speakerId ∈ speakers p.
Proof.
  unfold findProposal. destruct (proposals db !! proposalId) as [q|]; simpl.
  - case_decide; split.
    + by intros [= ->].
    + by intros [[= ->] _].
    + done.
    + by intros [[= ->] ?].
  - split; [done|]. by intros [? _].
Qed.

Lemma findProposal_None speakerId proposalId db :
  findProposal speakerId proposalId db = None ↔
  proposals db !! proposalId = None ∨
  ∃ p, proposals db !! proposalId = Some p ∧ speakerId ∉ speakers p.
Proof.
  unfold findProposal. destruct (proposals db !! proposalId) as [q|]; simpl.
  - case_decide as Hin; split.
    + done.
    + intros [|(p & [= ->] & Hnot)]; [done|]. by destruct Hnot.
    + intros _. right. by exists q.
    + done.
  - split; [by left|done].
Qed.

(** C4. When the proposal does not exist or the calling speaker is
    not one of its speakers, [get], [update], [removeCoSpeaker] and
    [confirm] all reject with [ProposalNotFoundError] and hand the
    database back as it was. *)
Theorem proposal_not_found_spec (speakerId proposalId : string) (db : Db) :
  proposals db !! proposalId = None ∨
    (∃ p, proposals db !! proposalId = Some p ∧ speakerId ∉ speakers p) →
  get speakerId proposalId db = (Rejects ProposalNotFoundError, db)
  ∧ (∀ data, update speakerId proposalId data db = (Rejects ProposalNotFoundError, db))
  ∧ (∀ coSpeakerId,
       removeCoSpeaker speakerId proposalId coSpeakerId db
         = (Rejects ProposalNotFoundError, db))
  ∧ (∀ participation,
       confirm speakerId proposalId participation db
         = (Rejects ProposalNotFoundError, db)).
Proof.
  intros Hnone. apply findProposal_None in Hnone.
  unfold get, update, removeCoSpeaker, confirm. rewrite Hnone. done.
Qed.


(** C6. For a proposal of the calling speaker: when the event's
    call for papers is not open, [update] rejects with [CfpNotOpenError]
    and hands the database back as it was; when it is open, [update]
    resolves and the row then carries the given title, abstract, level,
    languages, references, formats and categories (its other columns
    as before), and the related talk carries the talk's share of them. *)
Theorem update_spec (speakerId proposalId : string) (data : ProposalSaveData)
    (db : Db) (p : Proposal) (ev : Event) :
  proposals db !! proposalId = Some p → speakerId ∈ speakers p →
  events db !! eventId p = Some ev →
  (isCfpOpen ev = false →
     update speakerId proposalId data db = (Rejects CfpNotOpenError, db))
  ∧ (isCfpOpen ev = true →
     ∃ db' p', update speakerId proposalId data db = (Resolves (), db')
       ∧ proposals db' !! proposalId = Some p'
       ∧ title p' = data_title data ∧ abstract p' = data_abstract data
       ∧ level p' = data_level data ∧ languages p' = data_languages data
       ∧ references p' = data_references data
       ∧ formats p' = data_formats data ∧ categories p' = data_categories data
       ∧ eventId p' = eventId p ∧ talkId p' = talkId p ∧ speakers p' = speakers p
       ∧ deliberationStatus p' = deliberationStatus p
       ∧ publicationStatus p' = publicationStatus p
       ∧ confirmationStatus p' = confirmationStatus p
       ∧ (∀ t, talkId p = Some t →
            talks db' !! t = talk_with_data data <$> talks db !! t)
       ∧ (∀ other, other ≠ proposalId → proposals db' !! other = proposals db !! other)).
Proof.
  intros Hp Hs Hev.
  assert (findProposal speakerId proposalId db = Some p) as Hf
    by by apply findProposal_Some.
  unfold update. rewrite Hf, Hev. split; intros Hopen; rewrite Hopen; [done|].
  eexists _, (with_data data p). split; [reflexivity|].
  assert (∀ db0 : Db,
            proposals (match talkId p with
                       | Some t => set_talks (alter (talk_with_data data) t) db0
                       | None => db0
                       end) = proposals db0) as Hprops
    by (intros db0; by destruct (talkId p)).
  rewrite Hprops. simpl. split_and!; try done.
  - apply lookup_insert_eq.
  - intros t ->. simpl. by rewrite lookup_alter_eq.
  - intros other Hne. by apply lookup_insert_ne.
Qed.

(** *** The scenarios of the test suite *)

Definition newProposal (event : string) (talk : string) (spk : list string)
    (d : DeliberationStatus) (pub : PublicationStatus) : Proposal :=
  mkProposal event (Some talk) "My talk" "An abstract" (Some "BEGINNER") ["en"]
    (Some "My references") [] [] spk d pub None.

Definition newTalk (spk : list string) : Talk :=
  mkTalk "My talk" "An abstract" (Some "BEGINNER") ["en"] (Some "My references") spk.

(** One event with the call for papers open and one with it past; a
    submitted, an accepted and an accepted-and-published proposal of
    [speaker], one of another speaker, one with a co-speaker, and one
    submitted to the past event. *)
Definition testDb : Db :=
  mkDb
    (<["submitted" := newProposal "cfp-open" "t1" ["speaker"] PENDING NOT_PUBLISHED]>
     (<["accepted" := newProposal "cfp-open" "t2" ["speaker"] ACCEPTED NOT_PUBLISHED]>
     (<["accepted-published" := newProposal "cfp-open" "t3" ["speaker"] ACCEPTED PUBLISHED]>
     (<["of-other" := newProposal "cfp-open" "t4" ["other"] PENDING NOT_PUBLISHED]>
     (<["with-cospeaker" := newProposal "cfp-open" "t5" ["speaker"; "cospeaker"] PENDING NOT_PUBLISHED]>
     (<["cfp-past" := newProposal "cfp-past" "t1" ["speaker"] PENDING NOT_PUBLISHED]> ∅))))))
    (<["t1" := newTalk ["speaker"]]> (<["t2" := newTalk ["speaker"]]>
     (<["t3" := newTalk ["speaker"]]> (<["t4" := newTalk ["other"]]>
     (<["t5" := newTalk ["speaker"; "cospeaker"]]> ∅)))))
    (<["cfp-open" := mkEvent true]> (<["cfp-past" := mkEvent false]> ∅)).

Definition changed : ProposalSaveData :=
  mkSaveData "Title changed" "Abstract changes" (Some "INTERMEDIATE") ["be"]
    (Some "Reference changed") ["format-1"] ["category-1"].

(** '#get throws an error when the proposal does not exist' and '... does
    not belong to the user' *)
Example get_not_found :
  (get "speaker" "XXX" testDb).1 = Rejects ProposalNotFoundError ∧
  (get "speaker" "of-other" testDb).1 = Rejects ProposalNotFoundError.
Proof. split; vm_compute; reflexivity. Qed.

(** '#update updates the proposal and the related talk' *)
Example update_changes_proposal_and_talk :
  let db' := (update "speaker" "submitted" changed testDb).2 in
  (get "speaker" "submitted" db').1 =
    Resolves (mkProposal "cfp-open" (Some "t1") "Title changed" "Abstract changes"
                (Some "INTERMEDIATE") ["be"] (Some "Reference changed")
                ["format-1"] ["category-1"] ["speaker"] PENDING NOT_PUBLISHED None)
  ∧ talks db' !! "t1" =
      Some (mkTalk "Title changed" "Abstract changes" (Some "INTERMEDIATE") ["be"]
              (Some "Reference changed") ["speaker"]).
Proof. split; vm_compute; reflexivity. Qed.

(** '#update throws an error when CFP is not open', '... when proposal not
    found', '... when proposal does not belong to user' *)
Example update_errors :
  (update "speaker" "cfp-past" changed testDb).1 = Rejects CfpNotOpenError ∧
  (update "speaker" "XXX" changed testDb).1 = Rejects ProposalNotFoundError ∧
  (update "speaker" "of-other" changed testDb).1 = Rejects ProposalNotFoundError.
Proof. split_and!; vm_compute; reflexivity. Qed.

(** '#removeCoSpeaker removes a cospeaker from the proposal' and its two
    error scenarios *)
Example removeCoSpeaker_scenarios :
  speakers <$> proposals (removeCoSpeaker "speaker" "with-cospeaker" "cospeaker" testDb).2
                 !! "with-cospeaker" = Some ["speaker"] ∧
  (removeCoSpeaker "updater" "with-cospeaker" "cospeaker" testDb).1
    = Rejects ProposalNotFoundError ∧
  (removeCoSpeaker "speaker" "XXX" "cospeaker" testDb).1 = Rejects ProposalNotFoundError.
Proof. split_and!; vm_compute; reflexivity. Qed.

(** '#delete deletes a proposal' and 'does not delete a proposal if not
    belonging to user' *)
Example delete_scenarios :
  proposals (delete "speaker" "submitted" testDb).2 !! "submitted" = None ∧
  delete "speaker" "of-other" testDb = (Resolves (), testDb).
Proof. split; vm_compute; reflexivity. Qed.

(** '#confirm confirms a proposal', 'declines a proposal', 'cannot confirm
    or declined a not accepted proposal', '... a not published proposal',
    'throws an error when proposal not found' *)
Example confirm_scenarios :
  confirmationStatus <$> proposals (confirm "speaker" "accepted-published" CONFIRMED testDb).2
                           !! "accepted-published" = Some (Some CONFIRMED) ∧
  confirmationStatus <$> proposals (confirm "speaker" "accepted-published" DECLINED testDb).2
                           !! "accepted-published" = Some (Some DECLINED) ∧
  confirmationStatus <$> proposals (confirm "speaker" "submitted" CONFIRMED testDb).2
                           !! "submitted" = Some None ∧
  confirmationStatus <$> proposals (confirm "speaker" "accepted" CONFIRMED testDb).2
                           !! "accepted" = Some None ∧
  (confirm "speaker" "XXX" CONFIRMED testDb).1 = Rejects ProposalNotFoundError.
Proof. split_and!; vm_compute; reflexivity. Qed.

Lemma proposal_not_found_spec_witness :
  (proposals testDb !! "of-other" = None ∨
   ∃ p, proposals testDb !! "of-other" = Some p ∧ "speaker" ∉ speakers p) ∧
  confirm "speaker" "of-other" CONFIRMED testDb = (Rejects ProposalNotFoundError, testDb).
Proof.
  assert (proposals testDb !! "of-other" = None ∨
          ∃ p, proposals testDb !! "of-other" = Some p ∧ "speaker" ∉ speakers p) as H.
  { right. eexists. split; [vm_compute; reflexivity|].
    apply (bool_decide_unpack _). vm_compute. exact I. }
  split; [exact H|].
  destruct (proposal_not_found_spec "speaker" "of-other" testDb H) as (_ & _ & _ & Hc).
  exact (Hc CONFIRMED).
Defined.


Lemma update_spec_witness :
  proposals testDb !! "cfp-past"
    = Some (newProposal "cfp-past" "t1" ["speaker"] PENDING NOT_PUBLISHED) ∧
  "speaker" ∈ speakers (newProposal "cfp-past" "t1" ["speaker"] PENDING NOT_PUBLISHED) ∧
  events testDb !! eventId (newProposal "cfp-past" "t1" ["speaker"] PENDING NOT_PUBLISHED)
    = Some (mkEvent false) ∧
  update "speaker" "cfp-past" changed testDb = (Rejects CfpNotOpenError, testDb).
Proof.
  assert (proposals testDb !! "cfp-past"
            = Some (newProposal "cfp-past" "t1" ["speaker"] PENDING NOT_PUBLISHED)) as Hp
    by (vm_compute; reflexivity).
  assert ("speaker" ∈ speakers (newProposal "cfp-past" "t1" ["speaker"] PENDING NOT_PUBLISHED))
    as Hs by (apply (bool_decide_unpack _); vm_compute; exact I).
  assert (events testDb !! eventId (newProposal "cfp-past" "t1" ["speaker"] PENDING NOT_PUBLISHED)
            = Some (mkEvent false)) as He by (vm_compute; reflexivity).
  split_and!; [exact Hp|exact Hs|exact He|].
  destruct (update_spec "speaker" "cfp-past" changed testDb _ _ Hp Hs He) as [Hclosed _].
  exact (Hclosed eq_refl).
Defined.

End SpeakerProposals.

(** ** Deliberation: the proposals list header

    [ListHeader] is in the sources; the [DeliberationButton] it renders
    and the route action behind it are not. *)

Module Deliberation.

Import SpeakerProposals.

(** The props of [ListHeader] (the checkbox ref is a DOM handle and has
    no part in what is rendered). *)
Record Props := mkProps {
  total : nat;
  totalSelected : nat;
  totalReviewed : nat;
  selection : list string;
  isAllPagesSelected : bool;
}.

(** The props [ListHeader] hands to a [DeliberationButton]. *)
Record DeliberationButton := mkButton {
  status : DeliberationStatus;
  btn_selection : list string;
  btn_isAllPagesSelected : bool;
  btn_totalSelected : nat;
}.

Inductive Title :=
| Checkbox (label : string)
| Text (content : string).

(** What [ListHeader] renders: the title, the deliberation buttons, and
    the reviews progress ([reviewed], [total]). *)
Record Header := mkHeader {
  header_title : Title;
  header_buttons : list DeliberationButton;
  header_progress : nat * nat;
}.

(** [ListHeader], with [currentTeam.userPermissions.canDeliberateEventProposals]
    as its first argument. *)
Definition ListHeader (canDeliberateEventProposals : bool) (props : Props) : Header :=
  let button s :=
    mkButton s (selection props) (isAllPagesSelected props) (totalSelected props) in
  mkHeader
    (if canDeliberateEventProposals
     then Checkbox (if Nat.eqb (totalSelected props) 0
                    then pretty (total props) +:+ " proposals"
                    else "Mark " +:+ pretty (totalSelected props) +:+ " selected as:")
     else Text (pretty (total props) +:+ " proposals"))
    (if negb (Nat.eqb (totalSelected props) 0)
     then [button ACCEPTED; button PENDING; button REJECTED]
     else [])
    (totalReviewed props, total props).

(** The stages the specification names, and its chain
    submitted → accepted/rejected → confirmed/declined. *)
Inductive Stage := submitted | accepted | rejected | confirmed | declined.

Inductive advances : Stage → Stage → Prop :=
| advances_accept : advances submitted accepted
| advances_reject : advances submitted rejected
| advances_confirm : advances accepted confirmed
| advances_decline : advances accepted declined.

Definition stage_of (d : DeliberationStatus) : Stage :=
  match d with
  | PENDING => submitted
  | ACCEPTED => accepted
  | REJECTED => rejected
  end.

(** The stage a proposal row shows: what the speaker answered, if
    anything, else what the organisers decided. *)
Definition stage (p : Proposal) : Stage :=
  match confirmationStatus p with
  | Some CONFIRMED => confirmed
  | Some DECLINED => declined
  | None => stage_of (deliberationStatus p)
  end.

(** *** The header and the speaker's answer *)

(** [confirm] rewrites one row at most, and there only the answer. *)
Lemma confirm_lookup speakerId proposalId participation db id p' :
  proposals (confirm speakerId proposalId participation db).2 !! id = Some p' →
  ∃ p, proposals db !! id = Some p ∧
       (p' = p ∨
        (p' = with_confirmation (Some participation) p ∧
         deliberationStatus p = ACCEPTED ∧ publicationStatus p = PUBLISHED)).
Proof.
  unfold confirm. destruct (findProposal speakerId proposalId db) as [p|] eqn:Hf; simpl.
  2:{ intros H. exists p'. split; [done|by left]. }
  apply findProposal_Some in Hf as [Hp _].
  case_decide as Hacc; simpl.
  - destruct (decide (id = proposalId)) as [->|Hne].
    + rewrite lookup_insert_eq. intros [= <-]. exists p. split; [done|]. right.
      by destruct Hacc.
    + rewrite lookup_insert_ne by done. intros H. exists p'. split; [done|by left].
  - intros H. exists p'. split; [done|by left].
Qed.

(** *** What the header renders *)

Definition oneSelected : Props := mkProps 12 1 4 ["proposal-1"] false.

Example header_with_selection :
  ListHeader true oneSelected =
    mkHeader (Checkbox "Mark 1 selected as:")
      [mkButton ACCEPTED ["proposal-1"] false 1; mkButton PENDING ["proposal-1"] false 1;
       mkButton REJECTED ["proposal-1"] false 1]
      (4, 12).
Proof. vm_compute. reflexivity. Qed.

Example header_without_selection :
  ListHeader true (mkProps 12 0 4 [] false) = mkHeader (Checkbox "12 proposals") [] (4, 12) ∧
  ListHeader false (mkProps 12 0 4 [] false) = mkHeader (Text "12 proposals") [] (4, 12).
Proof. split; vm_compute; reflexivity. Qed.

(** The buttons [ListHeader] renders: none for an empty selection, and
    for a non-empty one the three targets, each for the whole selection.
    What pressing a button does is decided by [DeliberationButton] and its
    route action, which are not in the sources. *)
Lemma ListHeader_buttons (canDeliberate : bool) (props : Props) :
  header_buttons (ListHeader canDeliberate props) =
    if decide (totalSelected props = 0) then []
    else (λ s, mkButton s (selection props) (isAllPagesSelected props) (totalSelected props))
           <$> [ACCEPTED; PENDING; REJECTED].
Proof.
  unfold ListHeader. simpl.
  destruct (Nat.eqb_spec (totalSelected props) 0) as [Hz|Hnz].
  - by rewrite decide_True.
  - by rewrite decide_False.
Qed.

(** The speaker's [confirm] never changes the deliberation status, and on
    a proposal that has no answer yet it either changes nothing or takes
    it from accepted to confirmed or declined. *)
Lemma confirm_stage (speakerId proposalId : string) (participation : ConfirmationStatus)
    (db : Db) (id : string) (p' : Proposal) :
  proposals (confirm speakerId proposalId participation db).2 !! id = Some p' →
  ∃ p, proposals db !! id = Some p ∧
       deliberationStatus p' = deliberationStatus p ∧
       (confirmationStatus p = None →
          stage p' = stage p ∨ (stage p = accepted ∧ advances (stage p) (stage p'))).
Proof.
  intros Hp'.
  apply confirm_lookup in Hp' as (p & Hp & [->|(-> & Hacc & Hpub)]).
  - exists p. split_and!; [done..|]. intros _. by left.
  - exists p. split_and!; [done..|]. intros Hnone. right.
    unfold stage. simpl. rewrite Hnone, Hacc. simpl.
    split; [done|]. destruct participation; constructor.
Qed.

End Deliberation.

(** ** Team members: the service behind [team-members.server.test.ts]

    [team-members.server.ts] is not among the sources; its operations are
    modelled from the specification (authorization checks, then a database
    read or write) and run against the scenarios of its test suite. *)

Module TeamMembers.

Inductive TeamRole := OWNER | MEMBER | REVIEWER.

#[export] Instance TeamRole_eq_dec : EqDecision TeamRole.
Proof. solve_decision. Defined.

(** Modelled from the spec: the membership table (schema not in the
    sources): team slug, then member id, to the role. *)
Abbreviation Teams := (gmap string (gmap string TeamRole)).

Definition ForbiddenOperationError : Thrown :=
  ThrownError "ForbiddenOperationError" "Forbidden operation".

(** Modelled from the spec: the authorization read of [TeamMembers] (not
    in the sources): the role a user has in a team, if any. *)
Definition role_of (teams : Teams) (slug userId : string) : option TeamRole :=
  teams !! slug ≫= (λ members, members !! userId).

Section TeamMembers.

(** [TeamMembers.for(userId, team)] *)
Variable userId slug : string.

(** Modelled from the spec: the owner check of [TeamMembers] (not in the
    sources). *)
Definition is_owner (teams : Teams) : bool :=
  bool_decide (role_of teams slug userId = Some OWNER).

(** Modelled from the spec: [TeamMembers.list] (not in the sources): the
    owner check, then the read of the team's members with their roles
    (filters and paging of the listing are left out). *)
Definition list : Expr (W:=Teams) (list (string * TeamRole)) :=
  λ teams,
    if is_owner teams
    then (Resolves (map_to_list (default ∅ (teams !! slug))), teams)
    else (Rejects ForbiddenOperationError, teams).

(** Modelled from the spec: [TeamMembers.leave] (not in the sources): a
    member who is not an owner is taken off the team; an owner, or a user
    who does not belong to the team, is refused. *)
Definition leave : Expr (W:=Teams) unit :=
  λ teams,
    match role_of teams slug userId with
    | None | Some OWNER => (Rejects ForbiddenOperationError, teams)
    | Some _ => (Resolves (), alter (delete userId) slug teams)
    end.

(** Modelled from the spec: [TeamMembers.remove] (not in the sources):
    refused when the caller targets themselves or is not an owner, else
    the member is taken off the team. *)
Definition remove (memberId : string) : Expr (W:=Teams) unit :=
  λ teams,
    if decide (memberId = userId) then (Rejects ForbiddenOperationError, teams)
    else if is_owner teams
    then (Resolves (), alter (delete memberId) slug teams)
    else (Rejects ForbiddenOperationError, teams).

(** Modelled from the spec: [TeamMembers.changeRole] (not in the
    sources): refused when the caller targets themselves or is not an
    owner, else the member's role is set. *)
Definition changeRole (memberId : string) (role : TeamRole) : Expr (W:=Teams) unit :=
  λ teams,
    if decide (memberId = userId) then (Rejects ForbiddenOperationError, teams)
    else if is_owner teams
    then (Resolves (), alter (alter (λ _, role) memberId) slug teams)
    else (Rejects ForbiddenOperationError, teams).

End TeamMembers.

(** C5. [list], [remove] and [changeRole] reject with
    [ForbiddenOperationError] when the caller is not an owner of the team;
    [remove] and [changeRole] also when the caller targets themselves;
    [leave] when the caller is an owner or does not belong to the team.
    Each such rejection hands the membership table back as it was. *)
Theorem team_members_forbidden (userId slug : string) (teams : Teams) :
  (role_of teams slug userId ≠ Some OWNER →
     list userId slug teams = (Rejects ForbiddenOperationError, teams)
     ∧ (∀ memberId, remove userId slug memberId teams
                      = (Rejects ForbiddenOperationError, teams))
     ∧ (∀ memberId role, changeRole userId slug memberId role teams
                           = (Rejects ForbiddenOperationError, teams)))
  ∧ remove userId slug userId teams = (Rejects ForbiddenOperationError, teams)
  ∧ (∀ role, changeRole userId slug userId role teams
               = (Rejects ForbiddenOperationError, teams))
  ∧ (role_of teams slug userId = Some OWNER ∨ role_of teams slug userId = None →
     leave userId slug teams = (Rejects ForbiddenOperationError, teams)).
Proof.
  split_and!.
  - intros Hnot.
    assert (is_owner userId slug teams = false) as Hno
      by (unfold is_owner; by apply bool_decide_eq_false).
    unfold list, remove, changeRole. rewrite Hno. split_and!.
    + done.
    + intros memberId. by case_decide.
    + intros memberId role. by case_decide.
  - unfold remove. by rewrite decide_True.
  - intros role. unfold changeRole. by rewrite decide_True.
  - unfold leave. by intros [->| ->].
Qed.

(** *** The scenarios of the test suite *)

Definition myTeam : Teams :=
  <["my-team" := <["1" := OWNER]> (<["2" := MEMBER]> (<["3" := REVIEWER]> ∅))]>
    (<["other-team" := <["4" := OWNER]> ∅]> ∅).

(** 'returns nothing when user is not owner of the team' *)
Example list_not_owner :
  list "4" "my-team" myTeam = (Rejects ForbiddenOperationError, myTeam) ∧
  list "2" "my-team" myTeam = (Rejects ForbiddenOperationError, myTeam).
Proof. split; reflexivity. Qed.

(** 'leaves the organization as member' and the two refusals *)
Example leave_scenarios :
  role_of (leave "2" "my-team" myTeam).2 "my-team" "2" = None ∧
  (leave "2" "my-team" myTeam).1 = Resolves () ∧
  leave "1" "my-team" myTeam = (Rejects ForbiddenOperationError, myTeam) ∧
  leave "4" "my-team" myTeam = (Rejects ForbiddenOperationError, myTeam).
Proof. split_and!; reflexivity. Qed.

(** 'removes a member from the team' and the two refusals *)
Example remove_scenarios :
  role_of (remove "1" "my-team" "2" myTeam).2 "my-team" "2" = None ∧
  remove "1" "my-team" "1" myTeam = (Rejects ForbiddenOperationError, myTeam) ∧
  remove "4" "my-team" "1" myTeam = (Rejects ForbiddenOperationError, myTeam).
Proof. split_and!; reflexivity. Qed.

(** 'changes the role of a member when user has owner role' and the two
    refusals *)
Example changeRole_scenarios :
  role_of (changeRole "1" "my-team" "2" REVIEWER myTeam).2 "my-team" "2" = Some REVIEWER ∧
  changeRole "1" "my-team" "1" REVIEWER myTeam = (Rejects ForbiddenOperationError, myTeam) ∧
  changeRole "2" "my-team" "1" REVIEWER myTeam = (Rejects ForbiddenOperationError, myTeam).
Proof. split_and!; reflexivity. Qed.

End TeamMembers.

(** ** Guarding routes: [requireSession] over [getSessionUserId] *)

Module SessionGuard.

Import SessionAuth.

Section Guard.

Variable storage_getSession : option string → Session.
Variable storage_destroySession : Session → string.
Variable verifySessionCookie : string → Outcome DecodedIdToken.
Variable URLSearchParams_toString : list (string * string) → string.

Local Abbreviation getUserId :=
  (getSessionUserId storage_getSession storage_destroySession verifySessionCookie).
Local Abbreviation require :=
  (requireSession storage_getSession storage_destroySession verifySessionCookie
     URLSearchParams_toString).

(** The redirect [destroySession] throws for a request. *)
Definition cleared (request : Request) : Thrown :=
  ThrownResponse
    (redirect "/" (Some (storage_destroySession (storage_getSession (req_cookie request))))).

(** The redirect [requireSession] throws for a request. *)
Definition toLogin (request : Request) : Thrown :=
  ThrownResponse
    (redirect ("/auth/login?" +:+ URLSearchParams_toString [("redirectTo", req_pathname request)])
       None).

(** Whether the session of a request holds the three values. *)
Definition complete (session : Session) : bool :=
  truthy (session !! "jwt") && truthy (session !! "uid") && truthy (session !! "userId").

Lemma getSessionUserId_incomplete request log :
  complete (storage_getSession (req_cookie request)) = false →
  getUserId request log = (Resolves None, log).
Proof.
  unfold complete. intros Hf.
  unfold getSessionUserId, async, bind_await, seq, getSession, ret. simpl.
  apply andb_false_iff in Hf as [Hf|Hf]; [apply andb_false_iff in Hf as [Hf|Hf]|];
    rewrite Hf; simpl; rewrite ?orb_true_r; reflexivity.
Qed.

Lemma getSessionUserId_complete request log jwt uid userId :
  storage_getSession (req_cookie request) !! "jwt" = Some jwt → jwt ≠ "" →
  storage_getSession (req_cookie request) !! "uid" = Some uid → uid ≠ "" →
  storage_getSession (req_cookie request) !! "userId" = Some userId → userId ≠ "" →
  getUserId request log =
    match verifySessionCookie jwt with
    | Resolves token =>
        if decide (uid = token_uid token)
        then (Resolves (Some userId), (log ++ [VerifySessionCookie jwt])%list)
        else (Rejects (cleared request),
              (log ++ [VerifySessionCookie jwt;
                       StorageDestroySession (storage_getSession (req_cookie request));
                       StorageDestroySession (storage_getSession (req_cookie request))])%list)
    | Rejects _ =>
        (Rejects (cleared request),
         (log ++ [VerifySessionCookie jwt;
                  StorageDestroySession (storage_getSession (req_cookie request))])%list)
    end.
Proof.
  intros Hj Hjne Hu Hune Hi Hine.
  unfold getSessionUserId, async, bind_await, seq, getSession, ret, try_catch, call,
    when, skip.
  simpl. rewrite Hj, Hu, Hi. rewrite !truthy_intro by done. simpl.
  destruct (verifySessionCookie jwt) as [token|e]; simpl.
  - destruct (decide (uid = token_uid token)); [reflexivity|].
    cbv [await_destroySession destroySession async bind_await getSession ret call
         throw skip cleared].
    by rewrite <- !app_assoc.
  - cbv [await_destroySession destroySession async bind_await getSession ret call
         throw skip cleared].
    by rewrite <- !app_assoc.
Qed.

Lemma complete_inv session :
  complete session = true →
  ∃ jwt uid userId,
    session !! "jwt" = Some jwt ∧ jwt ≠ "" ∧ session !! "uid" = Some uid ∧ uid ≠ "" ∧
    session !! "userId" = Some userId ∧ userId ≠ "".
Proof.
  unfold complete. intros H.
  apply andb_true_iff in H as [H Hi]. apply andb_true_iff in H as [Hj Hu].
  apply truthy_Some in Hj as (jwt & ? & ?).
  apply truthy_Some in Hu as (uid & ? & ?).
  apply truthy_Some in Hi as (userId & ? & ?).
  by exists jwt, uid, userId.
Qed.

(** [requireSession] in terms of what [getSessionUserId] settled to. *)
Lemma requireSession_unfold request log :
  require request log =
    match getUserId request log with
    | (Resolves userId, log') =>
        if truthy userId then (Resolves (default "" userId), log')
        else (Rejects (toLogin request), log')
    | (Rejects e, log') => (Rejects e, log')
    end.
Proof.
  unfold requireSession, async, bind_await, seq, when, throw, ret, skip, toLogin.
  destruct (getUserId request log) as [[userId|e] log']; [|done].
  by destruct (truthy userId).
Qed.

(** X1. [requireSession] lets a request through only with the
    non-empty [userId] of a session whose jwt Firebase verified for the
    session's own uid.  A request whose session lacks [jwt], [uid] or
    [userId] is sent to the login page with its path as [redirectTo], and
    Firebase is not asked; a request whose session is complete but does
    not verify is sent to [/] with the cookie cleared, not to the login
    page. *)
Theorem requireSession_spec (request : Request) (log : list Call) :
  let session := storage_getSession (req_cookie request) in
  (∀ id log', require request log = (Resolves id, log') →
     id ≠ "" ∧ session !! "userId" = Some id ∧ log' = (log ++ [VerifySessionCookie
                                                               (default "" (session !! "jwt"))])%list ∧
     ∃ token, verifySessionCookie (default "" (session !! "jwt")) = Resolves token ∧
              session !! "uid" = Some (token_uid token))
  ∧ (complete session = false → require request log = (Rejects (toLogin request), log))
  ∧ (complete session = true →
     (∀ token, verifySessionCookie (default "" (session !! "jwt")) = Resolves token →
               session !! "uid" = Some (token_uid token) →
               require request log =
                 (Resolves (default "" (session !! "userId")),
                  (log ++ [VerifySessionCookie (default "" (session !! "jwt"))])%list))
     ∧ ((∀ token, verifySessionCookie (default "" (session !! "jwt")) = Resolves token →
                  session !! "uid" ≠ Some (token_uid token)) →
        (require request log).1 = Rejects (cleared request))).
Proof.
  intros session.
  assert (complete session = false → require request log = (Rejects (toLogin request), log))
    as Hinc.
  { intros Hf. rewrite requireSession_unfold, getSessionUserId_incomplete by done. done. }
  assert (complete session = true →
          ∃ jwt uid userId,
            session !! "jwt" = Some jwt ∧ session !! "uid" = Some uid ∧
            session !! "userId" = Some userId ∧ userId ≠ "" ∧
            require request log =
              match verifySessionCookie jwt with
              | Resolves token =>
                  if decide (uid = token_uid token)
                  then (Resolves userId, (log ++ [VerifySessionCookie jwt])%list)
                  else (Rejects (cleared request),
                        (log ++ [VerifySessionCookie jwt; StorageDestroySession session;
                                 StorageDestroySession session])%list)
              | Rejects _ =>
                  (Rejects (cleared request),
                   (log ++ [VerifySessionCookie jwt; StorageDestroySession session])%list)
              end) as Hcomp.
  { intros Hc. apply complete_inv in Hc as (jwt & uid & userId & Hj & Hjne & Hu & Hune & Hi & Hine).
    exists jwt, uid, userId. split_and!; try done.
    rewrite requireSession_unfold.
    rewrite (getSessionUserId_complete request log jwt uid userId) by done.
    destruct (verifySessionCookie jwt) as [token|e]; [|done].
    destruct (decide (uid = token_uid token)); [|done].
    by rewrite truthy_intro. }
  split_and!; [|exact Hinc|].
  - intros id log' Hres.
    destruct (complete session) eqn:Hc; [|by rewrite Hinc in Hres].
    destruct (Hcomp eq_refl) as (jwt & uid & userId & Hj & Hu & Hi & Hine & Hreq).
    rewrite Hreq in Hres. rewrite Hj. simpl.
    destruct (verifySessionCookie jwt) as [token|e] eqn:Hv; [|done].
    destruct (decide (uid = token_uid token)) as [->|]; [|done].
    simplify_eq. split_and!; try done. by exists token.
  - intros Hc. destruct (Hcomp Hc) as (jwt & uid & userId & Hj & Hu & Hi & Hine & Hreq).
    rewrite Hreq, Hj, Hu, Hi. simpl. split.
    + intros token Hv [= ->]. rewrite Hv. by rewrite decide_True.
    + intros Hno. destruct (verifySessionCookie jwt) as [token|e] eqn:Hv; [|done].
      destruct (decide (uid = token_uid token)) as [->|]; [|done].
      by destruct (Hno token eq_refl).
Qed.

End Guard.

End SessionGuard.

(** ** Signing in: [createSession]

    [createSession] joins the session storage, Firebase and
    [UserAccount.register]; its world is the database together with the
    calls that leave the process. *)

Module Login.

Import Integrations.

Record Request := mkRequest {
  req_cookie : option string;
  req_pathname : string;
  req_formData : FormData;
}.

(** The same request, as the session functions read it. *)
Definition session_request (request : Request) : SessionAuth.Request :=
  SessionAuth.mkRequest (req_cookie request) (req_pathname request).

(** What [verifyIdToken] decodes, by the fields [createSession] reads. *)
Record DecodedIdToken := mkIdToken {
  uid : string;
  name : option string;
  email : option string;
  email_verified : option bool;
  picture : option string;
  sign_in_provider : string;
}.

Definition MAX_AGE_SEC : N := (60 * 60 * 24 * 10)%N.
Definition MAX_AGE_MS : N := (MAX_AGE_SEC * 1000)%N.

Inductive Call :=
| SessionCall (c : SessionAuth.Call)
| VerifyIdToken (token : FormDataEntryValue)
| CreateSessionCookie (token : FormDataEntryValue) (expiresIn : N)
| StorageCommitSession (session : SessionAuth.Session) (maxAge : N)
| ConsoleError (error : Thrown).

Record World := mkWorld {
  db : UserRegistration.Db;
  calls : list Call;
}.

(** [!value] for a form value: [null] and the empty string are falsy, a
    file is an object and truthy. *)
Definition entry_truthy (v : option FormDataEntryValue) : bool :=
  match v with
  | Some (FormString s) => negb (String.eqb s "")
  | Some (FormFile _) => true
  | None => false
  end.

(** [value.toString()] for a form value. *)
Definition entry_toString (v : FormDataEntryValue) : string :=
  match v with
  | FormString s => s
  | FormFile _ => "[object File]"
  end.

(** [form.get('redirectTo')?.toString() || '/'] *)
Definition redirectTo (form : FormData) : string :=
  let s := default "" (entry_toString <$> form_get "redirectTo" form) in
  if String.eqb s "" then "/" else s.

Section CreateSession.

Variable storage_getSession : option string → SessionAuth.Session.
Variable storage_destroySession : SessionAuth.Session → string.
(** [sessionStorage.commitSession(session, { maxAge })] *)
Variable storage_commitSession : SessionAuth.Session → N → string.
(** Firebase Admin's [auth.verifyIdToken(token, true)] and
    [auth.createSessionCookie(token, { expiresIn })]. *)
Variable verifyIdToken : FormDataEntryValue → Outcome DecodedIdToken.
Variable createSessionCookie : FormDataEntryValue → N → Outcome string.
(** The primary key the database draws for a new user. *)
Variable createId : UserRegistration.Db → string.

Definition call {A} (c : Call) (o : Outcome A) : Expr (W:=World) A :=
  λ w, (o, mkWorld (db w) (calls w ++ [c])%list).

(** A session function, run in this world: its calls join the log. *)
Definition in_session {A} (e : Expr (W:=list SessionAuth.Call) A) : Expr (W:=World) A :=
  λ w, let '(o, l) := e [] in (o, mkWorld (db w) (calls w ++ (SessionCall <$> l))%list).

(** A database function, run in this world. *)
Definition in_db {A} (e : Expr (W:=UserRegistration.Db) A) : Expr (W:=World) A :=
  λ w, let '(o, db') := e (db w) in (o, mkWorld db' (calls w)).

(** [commitSession] *)
Definition commitSession (session : SessionAuth.Session) : Expr (W:=World) string :=
  async ""
    (await cookie ← call (StorageCommitSession session MAX_AGE_SEC)
                      (Resolves (storage_commitSession session MAX_AGE_SEC)) ;;
     ret cookie).

(** [createSession]; it returns the redirect, or whatever
    [destroySession] would resolve to ([None], which never comes). *)
Definition createSession (request : Request) : Expr (W:=World) (option Response) :=
  async None
    (let form := req_formData request in
     let token := form_get "token" form in
     let redirectTo := redirectTo form in
     when (negb (entry_truthy token))
       (await _ ← in_session (SessionAuth.destroySession storage_getSession
                                storage_destroySession (session_request request)) ;;
        ret None) ;;;
     let token := default (FormString "") token in
     try_catch
       (await decoded ← call (VerifyIdToken token) (verifyIdToken token) ;;
        await jwt ← call (CreateSessionCookie token MAX_AGE_MS)
                      (createSessionCookie token MAX_AGE_MS) ;;
        await userId ←
          in_db (UserRegistration.register createId
                   (UserRegistration.mkInput (uid decoded) (name decoded) (email decoded)
                      (email_verified decoded) (picture decoded)
                      (Some (sign_in_provider decoded)))) ;;
        await session ←
          in_session (SessionAuth.getSession storage_getSession (session_request request)) ;;
        let session := <["jwt" := jwt]> session in
        let session := <["uid" := uid decoded]> session in
        let session := <["userId" := userId]> session in
        await cookie ← commitSession session ;;
        ret (Some (SessionAuth.redirect redirectTo (Some cookie))))
       (λ error, (λ w, (Normal, mkWorld (db w) (calls w ++ [ConsoleError error])%list)) ;;;
                 throw error)).

End CreateSession.

End Login.

(** ** What [register] keeps true of the tables *)

Module RegistrationInvariants.

Import UserRegistration.

(** The uids and the user ids in use. *)
Definition uids (db : Db) : list string := am_uid <$> authenticationMethods db.
Definition userIds (db : Db) : list string := user_id <$> users db.

Section Invariants.

Variable createId : Db → string.

(** The three ways [register] can go. *)
Lemma register_cases data db :
  (∃ a u, findUnique db (uid data) = Some a ∧ include_user db a = Some u ∧
          register createId data db = (Resolves (user_id u), db))
  ∨ (∃ a, findUnique db (uid data) = Some a ∧ include_user db a = None ∧
          register createId data db = (Rejects inconsistent, db))
  ∨ (∃ usr am, findUnique db (uid data) = None ∧
               user_id usr = createId db ∧ am_userId am = createId db ∧
               am_uid am = uid data ∧
               register createId data db =
                 (Resolves (createId db),
                  mkDb (users db ++ [usr]) (authenticationMethods db ++ [am]))).
Proof.
  destruct (findUnique db (uid data)) as [a|] eqn:Ha.
  - destruct (include_user db a) as [u|] eqn:Hu.
    + left. exists a, u. split_and!; [done..|]. by apply register_existing with a.
    + right; left. exists a. split_and!; [done..|]. unfold register. by rewrite Ha, Hu.
  - right; right. rewrite register_new by done.
    set (usr := mkUser _ _ _ _ _). set (am := mkAuthenticationMethod _ _ _ _ _ _).
    by exists usr, am.
Qed.

Lemma register_resolves data db :
  db_wf db → ∃ id db', register createId data db = (Resolves id, db').
Proof.
  intros Hwf.
  destruct (register_cases data db)
    as [(a & u & _ & _ & ->)|[(a & Ha & Hu & _)|(usr & am & _ & _ & _ & _ & ->)]];
    [by eexists _, _| |by eexists _, _].
  apply findUnique_Some in Ha as [Hin _].
  unfold db_wf in Hwf. rewrite Forall_forall in Hwf.
  destruct (Hwf a Hin) as [u Hu']. by rewrite Hu in Hu'.
Qed.

(** After a call that resolved, the uid leads to the returned user. *)
Lemma register_lookup data db id db' :
  register createId data db = (Resolves id, db') →
  ∃ a u, findUnique db' (uid data) = Some a ∧ include_user db' a = Some u ∧
         user_id u = id ∧ u ∈ users db'.
Proof.
  intros Hreg.
  destruct (register_cases data db)
    as [(a & u & Ha & Hu & Hr)|[(a & _ & _ & Hr)|(usr & am & Hnone & Hid & Hfk & Huid & Hr)]];
    rewrite Hr in Hreg; simplify_eq.
  - exists a, u. split_and!; try done. by apply include_user_Some in Hu as [? _].
  - assert (findUnique (mkDb (users db ++ [usr]) (authenticationMethods db ++ [am]))
              (uid data) = Some am) as Hf.
    { unfold findUnique. simpl.
      rewrite (list_find_snoc (λ a, am_uid a = uid data)); [done| |done].
      unfold findUnique in Hnone. rewrite fmap_None in Hnone.
      by apply list_find_None in Hnone. }
    destruct (list_find_elem_of_is_Some (λ u0, user_id u0 = am_userId am)
                (users db ++ [usr]) usr) as (i & y & Hy & Hyid);
      [set_solver|congruence|].
    exists am, y. split_and!; [done| |congruence|].
    + unfold include_user. simpl. by rewrite Hy.
    + apply list_find_Some in Hy as (Hl & _). by eapply list_elem_of_lookup_2.
Qed.

(** A second call for the same uid finds the account of the first. *)
Lemma register_again d1 d2 db id db1 :
  register createId d1 db = (Resolves id, db1) → uid d2 = uid d1 →
  register createId d2 db1 = (Resolves id, db1).
Proof.
  intros Hreg Huid.
  destruct (register_lookup d1 db id db1 Hreg) as (a & u & Ha & Hu & <- & _).
  apply register_existing with a; [by rewrite Huid|done].
Qed.

(** X2. [register] keeps the relation between the two tables:
    when every authentication method points at a user row before the
    call, every one does after it, the new one included. *)
Theorem register_keeps_integrity (data : UserAccountCreateInput) (db : Db) :
  db_wf db → db_wf (register createId data db).2.
Proof.
  intros Hwf.
  destruct (register_cases data db)
    as [(a & u & _ & _ & ->)|[(a & _ & _ & ->)|(usr & am & _ & Hid & Hfk & _ & ->)]];
    [done..|].
  unfold db_wf in *. simpl. apply Forall_app. split.
  - eapply Forall_impl; [exact Hwf|]. intros x [u Hu].
    apply include_user_Some in Hu as [Hin Hu].
    unfold include_user. simpl.
    destruct (list_find_elem_of_is_Some (λ u0, user_id u0 = am_userId x)
                (users db ++ [usr]) u) as (i & y & -> & _); [set_solver|done|].
    by eexists.
  - apply Forall_singleton. unfold include_user. simpl.
    destruct (list_find_elem_of_is_Some (λ u0, user_id u0 = am_userId am)
                (users db ++ [usr]) usr) as (i & y & -> & _); [set_solver|congruence|].
    by eexists.
Qed.

(** X3. [register] keeps uids unique: it looks the uid up before
    it creates, so a table without two authentication methods of one uid
    has none after the call either. *)
Theorem register_keeps_uids_unique (data : UserAccountCreateInput) (db : Db) :
  NoDup (uids db) → NoDup (uids (register createId data db).2).
Proof.
  intros Hnd.
  destruct (register_cases data db)
    as [(a & u & _ & _ & ->)|[(a & _ & _ & ->)|(usr & am & Hnone & _ & _ & Huid & ->)]];
    [done..|].
  unfold uids. simpl. rewrite fmap_app. simpl. apply NoDup_app. split_and!.
  - exact Hnd.
  - intros x Hx Hx'. apply list_elem_of_singleton in Hx'. subst x.
    apply list_elem_of_fmap in Hx as (b & Hb & Hin).
    rewrite findUnique_None in Hnone. apply (Hnone b Hin). congruence.
  - apply NoDup_singleton.
Qed.

(** X4. Register, then look up: whenever [register] resolves, the
    authentication method found for the uid in the resulting database
    belongs to a user row whose id is the id returned. *)
Theorem register_then_lookup (data : UserAccountCreateInput) (db : Db) :
  db_wf db →
  ∃ id db' a u,
    register createId data db = (Resolves id, db') ∧
    findUnique db' (uid data) = Some a ∧ include_user db' a = Some u ∧
    user_id u = id.
Proof.
  intros Hwf. destruct (register_resolves data db Hwf) as (id & db' & Hreg).
  destruct (register_lookup data db id db' Hreg) as (a & u & Ha & Hu & Hid & _).
  by exists id, db', a, u.
Qed.

(** X5. [register] never deletes or rewrites a row: both tables
    keep their rows, in order, as a prefix, and a call adds either nothing
    or exactly one row to each table. *)
Theorem register_only_appends (data : UserAccountCreateInput) (db : Db) :
  let db' := (register createId data db).2 in
  users db `prefix_of` users db' ∧
  authenticationMethods db `prefix_of` authenticationMethods db' ∧
  (db' = db ∨
   (length (users db') = S (length (users db)) ∧
    length (authenticationMethods db') = S (length (authenticationMethods db)))).
Proof.
  destruct (register_cases data db)
    as [(a & u & _ & _ & ->)|[(a & _ & _ & ->)|(usr & am & _ & _ & _ & _ & ->)]]; simpl.
  - split_and!; [done..|by left].
  - split_and!; [done..|by left].
  - split_and!; [by eexists..|]. right. rewrite !length_app. simpl. lia.
Qed.

(** X6. With a key generator that draws a key not yet in use,
    [register] keeps user ids unique. *)
Theorem register_keeps_ids_unique (data : UserAccountCreateInput) (db : Db) :
  createId db ∉ userIds db → NoDup (userIds db) →
  NoDup (userIds (register createId data db).2).
Proof.
  intros Hfresh Hnd.
  destruct (register_cases data db)
    as [(a & u & _ & _ & ->)|[(a & _ & _ & ->)|(usr & am & _ & Hid & _ & _ & ->)]];
    [done..|].
  unfold userIds. simpl. rewrite fmap_app. simpl. apply NoDup_app. split_and!.
  - exact Hnd.
  - intros x Hx Hx'. apply list_elem_of_singleton in Hx'. subst x.
    rewrite Hid in Hx. by apply Hfresh.
  - apply NoDup_singleton.
Qed.

(** X7. Two uids, two accounts: when a first uid is registered
    and then a second, different uid that the database did not know, and
    the key drawn for it is not in use, the two calls resolve to
    different user ids. *)
Theorem register_separates_uids (d1 d2 : UserAccountCreateInput) (db : Db) :
  db_wf db → uid d1 ≠ uid d2 → uid d2 ∉ uids db →
  createId (register createId d1 db).2 ∉ userIds (register createId d1 db).2 →
  ∃ id1 id2 db1 db2,
    register createId d1 db = (Resolves id1, db1) ∧
    register createId d2 db1 = (Resolves id2, db2) ∧ id1 ≠ id2.
Proof.
  intros Hwf Hne Hnew Hfresh.
  destruct (register_resolves d1 db Hwf) as (id1 & db1 & Hreg1).
  rewrite Hreg1 in Hfresh. simpl in Hfresh.
  destruct (register_lookup d1 db id1 db1 Hreg1) as (a & u & _ & _ & Hid & Hin).
  assert (uid d2 ∉ uids db1) as Hnew1.
  { destruct (register_cases d1 db)
      as [(? & ? & _ & _ & Hr)|[(? & _ & _ & Hr)|(usr & am & _ & _ & _ & Huid & Hr)]];
      rewrite Hr in Hreg1; simplify_eq; [done|].
    unfold uids. simpl. rewrite fmap_app. simpl.
    intros Hx. apply elem_of_app in Hx as [Hx|Hx]; [done|].
    apply list_elem_of_singleton in Hx. congruence. }
  assert (findUnique db1 (uid d2) = None) as Hnone.
  { apply findUnique_None. intros b Hb Hu. apply Hnew1.
    unfold uids. apply list_elem_of_fmap. by exists b. }
  exists id1, (createId db1), db1. eexists. split; [done|].
  split; [by apply register_new|].
  intros ->. apply Hfresh. unfold userIds. apply list_elem_of_fmap. by exists u.
Qed.

End Invariants.

(** *** Witnesses on the test databases *)

Lemma register_keeps_integrity_witness :
  db_wf clarkDb ∧ db_wf (register seqId (bob "123") clarkDb).2.
Proof.
  assert (db_wf clarkDb) as Hwf by (apply (bool_decide_unpack _); vm_compute; exact I).
  split; [exact Hwf|]. exact (register_keeps_integrity seqId (bob "123") clarkDb Hwf).
Defined.

Lemma register_keeps_uids_unique_witness :
  NoDup (uids clarkDb) ∧ NoDup (uids (register seqId (bob "123") clarkDb).2).
Proof.
  assert (NoDup (uids clarkDb)) as Hnd by (apply (bool_decide_unpack _); vm_compute; exact I).
  split; [exact Hnd|]. exact (register_keeps_uids_unique seqId (bob "123") clarkDb Hnd).
Defined.

Lemma register_then_lookup_witness :
  db_wf clarkDb ∧
  ∃ id db' a u,
    register seqId (bob "123") clarkDb = (Resolves id, db') ∧
    findUnique db' (uid (bob "123")) = Some a ∧ include_user db' a = Some u ∧
    user_id u = id.
Proof.
  assert (db_wf clarkDb) as Hwf by (apply (bool_decide_unpack _); vm_compute; exact I).
  split; [exact Hwf|]. exact (register_then_lookup seqId (bob "123") clarkDb Hwf).
Defined.

Lemma register_keeps_ids_unique_witness :
  (seqId clarkDb ∉ userIds clarkDb) ∧ NoDup (userIds clarkDb) ∧
  NoDup (userIds (register seqId (bob "123") clarkDb).2).
Proof.
  assert (seqId clarkDb ∉ userIds clarkDb) as Hf
    by (apply (bool_decide_unpack _); vm_compute; exact I).
  assert (NoDup (userIds clarkDb)) as Hnd
    by (apply (bool_decide_unpack _); vm_compute; exact I).
  split_and!; [exact Hf|exact Hnd|].
  exact (register_keeps_ids_unique seqId (bob "123") clarkDb Hf Hnd).
Defined.

Lemma register_separates_uids_witness :
  db_wf clarkDb ∧ uid (bob "123") ≠ uid (bob "456") ∧ (uid (bob "456") ∉ uids clarkDb) ∧
  (seqId (register seqId (bob "123") clarkDb).2
     ∉ userIds (register seqId (bob "123") clarkDb).2) ∧
  ∃ id1 id2 db1 db2,
    register seqId (bob "123") clarkDb = (Resolves id1, db1) ∧
    register seqId (bob "456") db1 = (Resolves id2, db2) ∧ id1 ≠ id2.
Proof.
  assert (db_wf clarkDb) as Hwf by (apply (bool_decide_unpack _); vm_compute; exact I).
  assert (uid (bob "123") ≠ uid (bob "456")) as Hne by discriminate.
  assert (uid (bob "456") ∉ uids clarkDb) as Hnew
    by (apply (bool_decide_unpack _); vm_compute; exact I).
  assert (seqId (register seqId (bob "123") clarkDb).2
            ∉ userIds (register seqId (bob "123") clarkDb).2) as Hfresh
    by (apply (bool_decide_unpack _); vm_compute; exact I).
  split_and!; [exact Hwf|exact Hne|exact Hnew|exact Hfresh|].
  exact (register_separates_uids seqId (bob "123") (bob "456") clarkDb Hwf Hne Hnew Hfresh).
Defined.

End RegistrationInvariants.

(** ** What [createSession] does with a sign-in form *)

Module LoginFacts.

Import Integrations Login.

Section Facts.

Variable storage_getSession : option string → SessionAuth.Session.
Variable storage_destroySession : SessionAuth.Session → string.
Variable storage_commitSession : SessionAuth.Session → N → string.
Variable verifyIdToken : FormDataEntryValue → Outcome DecodedIdToken.
Variable createSessionCookie : FormDataEntryValue → N → Outcome string.
Variable createId : UserRegistration.Db → string.

Local Abbreviation create :=
  (createSession storage_getSession storage_destroySession storage_commitSession
     verifyIdToken createSessionCookie createId).

(** The registration input [createSession] builds from a decoded token. *)
Definition registration (decoded : DecodedIdToken) : UserRegistration.UserAccountCreateInput :=
  UserRegistration.mkInput (uid decoded) (name decoded) (email decoded)
    (email_verified decoded) (picture decoded) (Some (sign_in_provider decoded)).

(** The session [createSession] commits. *)
Definition signedIn (request : Request) (jwt uid userId : string) : SessionAuth.Session :=
  <["userId" := userId]> (<["uid" := uid]> (<["jwt" := jwt]>
    (storage_getSession (req_cookie request)))).

Lemma entry_truthy_Some v :
  entry_truthy v = true → ∃ token, v = Some token ∧ default (FormString "") v = token.
Proof. destruct v as [token|]; [|done]. intros _. by exists token. Qed.

(** [createSession] once the token is there, by how Firebase and
    [register] settle. *)
Lemma createSession_with_token request w token :
  form_get "token" (req_formData request) = Some token →
  entry_truthy (Some token) = true →
  create request w =
    match verifyIdToken token with
    | Rejects e =>
        (Rejects e, mkWorld (db w) (calls w ++ [VerifyIdToken token; ConsoleError e]))
    | Resolves decoded =>
        match createSessionCookie token MAX_AGE_MS with
        | Rejects e =>
            (Rejects e,
             mkWorld (db w) (calls w ++ [VerifyIdToken token;
                                         CreateSessionCookie token MAX_AGE_MS;
                                         ConsoleError e]))
        | Resolves jwt =>
            match UserRegistration.register createId (registration decoded) (db w) with
            | (Rejects e, db') =>
                (Rejects e,
                 mkWorld db' (calls w ++ [VerifyIdToken token;
                                          CreateSessionCookie token MAX_AGE_MS;
                                          ConsoleError e]))
            | (Resolves userId, db') =>
                let session := signedIn request jwt (uid decoded) userId in
                (Resolves (Some (SessionAuth.redirect (redirectTo (req_formData request))
                                   (Some (storage_commitSession session MAX_AGE_SEC)))),
                 mkWorld db' (calls w ++ [VerifyIdToken token;
                                          CreateSessionCookie token MAX_AGE_MS;
                                          StorageCommitSession session MAX_AGE_SEC]))
            end
        end
    end.
Proof.
  intros Htoken Htruthy.
  unfold createSession, async, seq, when, try_catch, bind_await, call, in_db, in_session,
    commitSession, ret, throw, skip.
  rewrite Htoken, Htruthy. simpl.
  destruct (verifyIdToken token) as [decoded|e]; simpl.
  2:{ by rewrite <- !app_assoc. }
  destruct (createSessionCookie token MAX_AGE_MS) as [jwt|e]; simpl.
  2:{ by rewrite <- !app_assoc. }
  fold (registration decoded).
  destruct (UserRegistration.register createId (registration decoded) (db w))
    as [[userId|e] db']; simpl.
  - rewrite app_nil_r. unfold async, bind_await, ret. simpl.
    by rewrite <- !app_assoc.
  - by rewrite <- !app_assoc.
Qed.

(** X8. Without a token (the field absent or empty)
    [createSession] never resolves: it rejects with the redirect to [/]
    that clears the session cookie, asks nothing of Firebase and leaves
    the database as it was. *)
Theorem createSession_without_token (request : Request) (w : World) :
  entry_truthy (form_get "token" (req_formData request)) = false →
  create request w =
    (Rejects (ThrownResponse
                (SessionAuth.redirect "/"
                   (Some (storage_destroySession (storage_getSession (req_cookie request)))))),
     mkWorld (db w)
       (calls w ++ [SessionCall (SessionAuth.StorageDestroySession
                                   (storage_getSession (req_cookie request)))])).
Proof.
  intros Hno.
  unfold createSession, async, seq, when, bind_await, in_session.
  rewrite Hno. reflexivity.
Qed.

(** X9. No account without a session: when Firebase rejects the
    token, or verifies it but fails to mint the session cookie,
    [createSession] rejects with Firebase's error and the database is
    left as it was; [register] has not run. *)
Theorem createSession_firebase_failure (request : Request) (w : World)
    (token : FormDataEntryValue) (e : Thrown) :
  form_get "token" (req_formData request) = Some token →
  entry_truthy (Some token) = true →
  verifyIdToken token = Rejects e ∨
    (∃ decoded, verifyIdToken token = Resolves decoded ∧
                createSessionCookie token MAX_AGE_MS = Rejects e) →
  (create request w).1 = Rejects e ∧ db (create request w).2 = db w.
Proof.
  intros Htoken Htruthy Hfail.
  rewrite (createSession_with_token request w token Htoken Htruthy).
  destruct Hfail as [->|(decoded & -> & ->)]; done.
Qed.

(** X10. Signing in, then coming back: when Firebase verifies the
    token and mints a cookie and [register] resolves, [createSession]
    redirects to the form's [redirectTo] ([/] when absent or empty) with
    a session holding the cookie, the token's uid and the registered
    user's id.  A later request carrying that session, for which Firebase
    verifies the cookie for the same uid, is recognised by
    [getSessionUserId] as that user. *)
Theorem createSession_then_getSessionUserId (request : Request) (w : World)
    (token : FormDataEntryValue) (decoded : DecodedIdToken) (jwt userId : string)
    (db' : UserRegistration.Db) :
  form_get "token" (req_formData request) = Some token →
  entry_truthy (Some token) = true →
  verifyIdToken token = Resolves decoded →
  createSessionCookie token MAX_AGE_MS = Resolves jwt →
  UserRegistration.register createId (registration decoded) (db w) = (Resolves userId, db') →
  let session := signedIn request jwt (uid decoded) userId in
  create request w =
    (Resolves (Some (SessionAuth.redirect (redirectTo (req_formData request))
                       (Some (storage_commitSession session MAX_AGE_SEC)))),
     mkWorld db' (calls w ++ [VerifyIdToken token; CreateSessionCookie token MAX_AGE_MS;
                              StorageCommitSession session MAX_AGE_SEC]))
  ∧ redirectTo (req_formData request) ≠ ""
  ∧ ∀ (verifySessionCookie : string → Outcome SessionAuth.DecodedIdToken)
      (next : SessionAuth.Request) (log : list SessionAuth.Call),
      storage_getSession (SessionAuth.req_cookie next) = session →
      jwt ≠ "" → uid decoded ≠ "" → userId ≠ "" →
      verifySessionCookie jwt = Resolves (SessionAuth.mkToken (uid decoded)) →
      SessionAuth.getSessionUserId storage_getSession storage_destroySession
        verifySessionCookie next log
      = (Resolves (Some userId), (log ++ [SessionAuth.VerifySessionCookie jwt])%list).
Proof.
  intros Htoken Htruthy Hverify Hcookie Hreg session.
  split_and!.
  - rewrite (createSession_with_token request w token Htoken Htruthy).
    by rewrite Hverify, Hcookie, Hreg.
  - unfold redirectTo.
    destruct (String.eqb_spec
                (default "" (entry_toString <$> form_get "redirectTo" (req_formData request)))
                ""); done.
  - intros verifySessionCookie next log Hnext Hjwt Huid Hid Hv.
    rewrite (SessionGuard.getSessionUserId_complete storage_getSession storage_destroySession
               verifySessionCookie next log jwt (uid decoded) userId);
      try done.
    + rewrite Hv. simpl. by rewrite decide_True.
    + rewrite Hnext. unfold session, signedIn.
      rewrite lookup_insert_ne by done. rewrite lookup_insert_ne by done.
      apply lookup_insert_eq.
    + rewrite Hnext. unfold session, signedIn.
      rewrite lookup_insert_ne by done. apply lookup_insert_eq.
    + rewrite Hnext. unfold session, signedIn. apply lookup_insert_eq.
Qed.

(** X11. Signing in again keeps the account: when a first
    [createSession] has registered or found the user of a token, a second
    one whose token decodes to the same uid commits a session for the same
    user id and leaves the database as the first left it. *)
Theorem createSession_again (r1 r2 : Request) (w : World)
    (t1 t2 : FormDataEntryValue) (d1 d2 : DecodedIdToken) (jwt1 jwt2 userId : string)
    (db1 : UserRegistration.Db) :
  form_get "token" (req_formData r1) = Some t1 → entry_truthy (Some t1) = true →
  form_get "token" (req_formData r2) = Some t2 → entry_truthy (Some t2) = true →
  verifyIdToken t1 = Resolves d1 → verifyIdToken t2 = Resolves d2 →
  createSessionCookie t1 MAX_AGE_MS = Resolves jwt1 →
  createSessionCookie t2 MAX_AGE_MS = Resolves jwt2 →
  uid d2 = uid d1 →
  UserRegistration.register createId (registration d1) (db w) = (Resolves userId, db1) →
  ∃ calls2,
    create r2 (create r1 w).2 =
      (Resolves (Some (SessionAuth.redirect (redirectTo (req_formData r2))
                         (Some (storage_commitSession
                                  (signedIn r2 jwt2 (uid d2) userId) MAX_AGE_SEC)))),
       mkWorld db1 calls2).
Proof.
  intros Ht1 Htr1 Ht2 Htr2 Hv1 Hv2 Hc1 Hc2 Huid Hreg.
  rewrite (createSession_with_token r1 w t1 Ht1 Htr1), Hv1, Hc1, Hreg. simpl.
  rewrite (createSession_with_token r2 _ t2 Ht2 Htr2), Hv2, Hc2. simpl.
  rewrite (RegistrationInvariants.register_again createId (registration d1)
             (registration d2) (db w) userId db1 Hreg Huid).
  by eexists.
Qed.

End Facts.

(** *** A sign-in, with test doubles for Firebase and the storage *)

Definition bobToken : DecodedIdToken :=
  mkIdToken "123" (Some "Bob") (Some "bob@example.com") (Some true) None "password".

Definition mockVerifyIdToken (token : FormDataEntryValue) : Outcome DecodedIdToken :=
  match token with
  | FormString s =>
      if String.eqb s "id-token-of-bob" then Resolves bobToken
      else Rejects (ThrownError "FirebaseAuthError" "auth/argument-error")
  | FormFile _ => Rejects (ThrownError "FirebaseAuthError" "auth/argument-error")
  end.

Definition mockCreate :=
  createSession (λ _, ∅) (λ _, "__session=; Max-Age=0") (λ _ _, "__session=signed")
    mockVerifyIdToken (λ _ _, Resolves "jwt-of-bob") UserRegistration.seqId.

Definition signIn : Request :=
  mkRequest None "/auth/login"
    [("token", FormString "id-token-of-bob"); ("redirectTo", FormString "/speaker")].

Definition freshWorld : World := mkWorld UserRegistration.emptyDb [].

Example createSession_signs_in :
  mockCreate signIn freshWorld =
    (Resolves (Some (mkResponse 302 "/speaker" (Some "__session=signed"))),
     mkWorld
       (UserRegistration.mkDb
          [UserRegistration.mkUser "user-0" "Bob" "bob@example.com" (Some true) None]
          [UserRegistration.mkAuthenticationMethod "123" "Bob" "bob@example.com" None
             "password" "user-0"])
       [VerifyIdToken (FormString "id-token-of-bob");
        CreateSessionCookie (FormString "id-token-of-bob") 864000000%N;
        StorageCommitSession
          (<["userId" := "user-0"]> (<["uid" := "123"]> (<["jwt" := "jwt-of-bob"]> ∅)))
          864000%N]).
Proof. vm_compute. reflexivity. Qed.

Lemma createSession_without_token_witness :
  entry_truthy (form_get "token" (req_formData (mkRequest None "/" [("token", FormString "")])))
    = false ∧
  mockCreate (mkRequest None "/" [("token", FormString "")]) freshWorld =
    (Rejects (ThrownResponse (SessionAuth.redirect "/" (Some "__session=; Max-Age=0"))),
     mkWorld UserRegistration.emptyDb [SessionCall (SessionAuth.StorageDestroySession ∅)]).
Proof.
  split; [reflexivity|].
  exact (createSession_without_token (λ _, ∅) (λ _, "__session=; Max-Age=0")
           (λ _ _, "__session=signed") mockVerifyIdToken (λ _ _, Resolves "jwt-of-bob")
           UserRegistration.seqId (mkRequest None "/" [("token", FormString "")])
           freshWorld eq_refl).
Defined.

Lemma createSession_firebase_failure_witness :
  form_get "token" (req_formData (mkRequest None "/" [("token", FormString "forged")]))
    = Some (FormString "forged") ∧
  entry_truthy (Some (FormString "forged")) = true ∧
  mockVerifyIdToken (FormString "forged")
    = Rejects (ThrownError "FirebaseAuthError" "auth/argument-error") ∧
  (mockCreate (mkRequest None "/" [("token", FormString "forged")]) freshWorld).1
    = Rejects (ThrownError "FirebaseAuthError" "auth/argument-error") ∧
  db (mockCreate (mkRequest None "/" [("token", FormString "forged")]) freshWorld).2
    = UserRegistration.emptyDb.
Proof.
  split_and!; [reflexivity..| |];
    apply (createSession_firebase_failure (λ _, ∅) (λ _, "__session=; Max-Age=0")
             (λ _ _, "__session=signed") mockVerifyIdToken (λ _ _, Resolves "jwt-of-bob")
             UserRegistration.seqId (mkRequest None "/" [("token", FormString "forged")])
             freshWorld (FormString "forged")
             (ThrownError "FirebaseAuthError" "auth/argument-error")
             eq_refl eq_refl (or_introl eq_refl)).
Defined.

Lemma createSession_then_getSessionUserId_witness :
  form_get "token" (req_formData signIn) = Some (FormString "id-token-of-bob") ∧
  entry_truthy (Some (FormString "id-token-of-bob")) = true ∧
  mockVerifyIdToken (FormString "id-token-of-bob") = Resolves bobToken ∧
  UserRegistration.register UserRegistration.seqId (registration bobToken) (db freshWorld)
    = (Resolves "user-0", db (mockCreate signIn freshWorld).2) ∧
  (mockCreate signIn freshWorld).1 =
    Resolves (Some (mkResponse 302 "/speaker" (Some "__session=signed"))).
Proof.
  assert (UserRegistration.register UserRegistration.seqId (registration bobToken)
            (db freshWorld) = (Resolves "user-0", db (mockCreate signIn freshWorld).2))
    as Hreg by (vm_compute; reflexivity).
  split_and!; [reflexivity..|exact Hreg|].
  destruct (createSession_then_getSessionUserId (λ _, ∅) (λ _, "__session=; Max-Age=0")
              (λ _ _, "__session=signed") mockVerifyIdToken (λ _ _, Resolves "jwt-of-bob")
              UserRegistration.seqId signIn freshWorld (FormString "id-token-of-bob")
              bobToken "jwt-of-bob" "user-0" _ eq_refl eq_refl eq_refl eq_refl Hreg)
    as (Hcreate & _ & _).
  unfold mockCreate. rewrite Hcreate. reflexivity.
Defined.

Lemma createSession_again_witness :
  form_get "token" (req_formData signIn) = Some (FormString "id-token-of-bob") ∧
  entry_truthy (Some (FormString "id-token-of-bob")) = true ∧
  mockVerifyIdToken (FormString "id-token-of-bob") = Resolves bobToken ∧
  UserRegistration.register UserRegistration.seqId (registration bobToken) (db freshWorld)
    = (Resolves "user-0", db (mockCreate signIn freshWorld).2) ∧
  ∃ calls2,
    mockCreate signIn (mockCreate signIn freshWorld).2 =
      (Resolves (Some (SessionAuth.redirect (redirectTo (req_formData signIn))
                         (Some "__session=signed"))),
       mkWorld (db (mockCreate signIn freshWorld).2) calls2).
Proof.
  assert (UserRegistration.register UserRegistration.seqId (registration bobToken)
            (db freshWorld) = (Resolves "user-0", db (mockCreate signIn freshWorld).2))
    as Hreg by (vm_compute; reflexivity).
  split_and!; [reflexivity..|exact Hreg|].
  exact (createSession_again (λ _, ∅) (λ _, "__session=; Max-Age=0")
           (λ _ _, "__session=signed") mockVerifyIdToken (λ _ _, Resolves "jwt-of-bob")
           UserRegistration.seqId signIn signIn freshWorld
           (FormString "id-token-of-bob") (FormString "id-token-of-bob")
           bobToken bobToken "jwt-of-bob" "jwt-of-bob" "user-0" _
           eq_refl eq_refl eq_refl eq_refl eq_refl eq_refl eq_refl eq_refl eq_refl Hreg).
Defined.

End LoginFacts.

(** ** What [sendResetPasswordEmail] asks of the outside *)

Module ResetPasswordFacts.

Import ResetPassword.

(** What may follow the request for a link: console messages, and
    e-mails to the given address only. *)
Definition follows (email : string) (ev : Effect) : Prop :=
  match ev with
  | GeneratePasswordResetLink _ => False
  | SendResetPasswordEmail to _ => to = email
  | ConsoleError _ => True
  end.

(** X12. Whatever Firebase, the URL parser and the mailer do,
    [sendResetPasswordEmail] asks Firebase for exactly one reset link, for
    the given address and before anything else; it hands the mailer at
    most one e-mail, addressed to the given address and no other; and
    when the mailer rejects, the rejection ends on the console, not with
    the caller. *)
Theorem sendResetPasswordEmail_calls
    (generatePasswordResetLink : string → Outcome string)
    (URL_parse : string → option URL) (URL_toString : URL → string)
    (appUrl : string) (mailer : string → string → Outcome unit)
    (email : string) (log : list Effect) :
  ∃ rest,
    sendResetPasswordEmail generatePasswordResetLink URL_parse URL_toString
      appUrl mailer email log
    = (Resolves (), (log ++ GeneratePasswordResetLink email :: rest)%list)
    ∧ Forall (follows email) rest
    ∧ (length (emails rest) ≤ 1)%nat
    ∧ (∀ url e, SendResetPasswordEmail email url ∈ rest →
                mailer email url = Rejects e → ConsoleError (message e) ∈ rest).
Proof.
  unfold sendResetPasswordEmail, async, try_catch, bind_await, seq, when,
    perform, new_URL, settle, console_error, ret, skip.
  destruct (generatePasswordResetLink email) as [link|e0].
  2:{ exists [ConsoleError (message e0)]. rewrite <- app_assoc.
      split_and!; [done|by repeat constructor|simpl; lia|].
      intros url e Hin. apply list_elem_of_singleton in Hin. done. }
  destruct (URL_parse link) as [u|].
  2:{ exists [ConsoleError (Some "Invalid URL")]. rewrite <- app_assoc.
      split_and!; [done|by repeat constructor|simpl; lia|].
      intros url e Hin. apply list_elem_of_singleton in Hin. done. }
  destruct (truthy (sp_get "oobCode" (searchParams u))); simpl.
  2:{ exists []. split_and!; [done|constructor|simpl; lia|].
      intros url e Hin. by apply elem_of_nil in Hin. }
  destruct (URL_parse (appUrl +:+ "/auth/reset-password")) as [base|].
  2:{ exists [ConsoleError (Some "Invalid URL")]. rewrite <- app_assoc.
      split_and!; [done|by repeat constructor|simpl; lia|].
      intros url e Hin. apply list_elem_of_singleton in Hin. done. }
  set (url := URL_toString _).
  destruct (mailer email url) as [[]|e1] eqn:Hmail.
  - exists [SendResetPasswordEmail email url]. rewrite <- app_assoc.
    split_and!; [done|by repeat constructor|simpl; lia|].
    intros url' e Hin Hrej. apply list_elem_of_singleton in Hin. simplify_eq.
    by rewrite Hmail in Hrej.
  - exists [SendResetPasswordEmail email url; ConsoleError (message e1)].
    rewrite <- !app_assoc.
    split_and!; [done|by repeat constructor|simpl; lia|].
    intros url' e Hin Hrej.
    apply elem_of_cons in Hin as [Hin|Hin].
    + simplify_eq. rewrite Hmail in Hrej. simplify_eq.
      apply list_elem_of_further, list_elem_of_here.
    + apply list_elem_of_singleton in Hin. done.
Qed.

End ResetPasswordFacts.

(** ** What the integrations action asks of the services *)

Module IntegrationsFacts.

Import Integrations.

(** On whose behalf, and for which team and event, a service is called. *)
Definition call_scope {S} (c : ServiceCall S) : string * string * string :=
  match c with
  | UserEvent_update userId team event _
  | EventIntegrations_save userId team event _
  | EventIntegrations_checkConfiguration userId team event _
  | EventIntegrations_delete userId team event _ => (userId, team, event)
  end.

Section Facts.

Context {SlackSettings FieldErrors : Type}.
Variable requireUserSession : Request → Outcome string.
Variable parseSlackSettings : FormData → Submission SlackSettings FieldErrors.
Variable parseOptionalId : FormData → Submission (option string) FieldErrors.
Variable parseId : FormData → Submission string FieldErrors.
Variable parseOpenPlannerConfig : FormData → Submission OpenPlannerConfig FieldErrors.
Variable update_outcome : string → string → string → SlackSettings → Outcome unit.
Variable save_outcome : string → string → string → IntegrationData → Outcome unit.
Variable check_outcome : string → string → string → IntegrationData → Outcome (option CheckResult).
Variable delete_outcome : string → string → string → string → Outcome unit.

Local Abbreviation act := (action SlackSettings FieldErrors requireUserSession
  parseSlackSettings parseOptionalId parseId parseOpenPlannerConfig update_outcome
  save_outcome check_outcome delete_outcome).

(** X13. Whatever the form holds, the action calls at most one
    service per request, and only on behalf of the session's user and for
    the team and event of the route; without a session it rejects as
    [requireUserSession] does and calls none. *)
Theorem action_calls_are_scoped (request : Request) (params : Params)
    (log : list (ServiceCall SlackSettings)) :
  match requireUserSession request with
  | Rejects e => act request params log = (Rejects e, log)
  | Resolves userId =>
      ∃ new, (act request params log).2 = (log ++ new)%list ∧ (length new ≤ 1)%nat ∧
             Forall (λ c, call_scope c = (userId, team params, event params)) new
  end.
Proof.
  unfold action, async, bind_await, settle, seq, service, ret, skip, when.
  destruct (requireUserSession request) as [userId|e]; [|done].
  assert (∃ new : list (ServiceCall SlackSettings),
            log = (log ++ new)%list ∧ (length new ≤ 1)%nat ∧
            Forall (λ c, call_scope c = (userId, team params, event params)) new) as Hnone.
  { exists []. rewrite app_nil_r. split_and!; [done|simpl; lia|constructor]. }
  assert (∀ c : ServiceCall SlackSettings,
            call_scope c = (userId, team params, event params) →
            ∃ new, (log ++ [c])%list = (log ++ new)%list ∧ (length new ≤ 1)%nat ∧
                   Forall (λ c, call_scope c = (userId, team params, event params)) new)
    as Hone.
  { intros c Hc. exists [c]. split_and!; [done|simpl; lia|by constructor]. }
  destruct (is_intent _ "save-slack-integration").
  { destruct (parseSlackSettings _); [|exact Hnone].
    destruct (update_outcome _ _ _ _); by apply Hone. }
  destruct (is_intent _ "save-open-planner-integration").
  { destruct (parseOptionalId _); [|exact Hnone].
    destruct (parseOpenPlannerConfig _); [|exact Hnone].
    destruct (save_outcome _ _ _ _); by apply Hone. }
  destruct (is_intent _ "check-open-planner-integration").
  { destruct (parseOptionalId _); [|exact Hnone].
    destruct (parseOpenPlannerConfig _); [|exact Hnone].
    destruct (check_outcome _ _ _ _) as [[[[] ?]|]|]; by apply Hone. }
  destruct (is_intent _ "disable-integration").
  { destruct (parseId _); [|exact Hnone].
    destruct (delete_outcome _ _ _ _); by apply Hone. }
  exact Hnone.
Qed.

(** The toast of a connection test, by [result?.success] and
    [result?.error]. *)
Definition check_toast (result : option CheckResult) : ActionResult FieldErrors :=
  match result with
  | Some (mkCheck true _) => Toast toast_success "OpenPlanner integration is working."
  | Some (mkCheck false (Some issue)) => Toast toast_error ("OpenPlanner issue: " +:+ issue)
  | Some (mkCheck false None) | None => Toast toast_error "OpenPlanner issue: undefined"
  end.

(** X14. Testing the connection saves nothing: with intent
    [check-open-planner-integration] and a form that passes both schemas,
    the only service call is [checkConfiguration].  The toast is the
    success toast exactly when the result says [success]; a result without
    success, or no result at all, gives the error toast with the result's
    error, which reads [undefined] when there is none; a rejection of the
    check is the action's. *)
Theorem action_check_connection (request : Request) (params : Params) (userId : string)
    (id : option string) (configuration : OpenPlannerConfig)
    (log : list (ServiceCall SlackSettings)) :
  requireUserSession request = Resolves userId →
  form_get "intent" (req_formData request)
    = Some (FormString "check-open-planner-integration") →
  parseOptionalId (req_formData request) = Success id →
  parseOpenPlannerConfig (req_formData request) = Success configuration →
  let data := mkData id "OPEN_PLANNER" configuration in
  act request params log =
    (match check_outcome userId (team params) (event params) data with
     | Resolves result => Resolves (check_toast result)
     | Rejects e => Rejects e
     end,
     (log ++ [EventIntegrations_checkConfiguration userId (team params) (event params) data])%list).
Proof.
  intros Hsession Hintent Hid Hconfig data.
  unfold action, async, bind_await, settle, seq, service, ret, skip, when.
  rewrite Hsession, Hintent, Hid, Hconfig. simpl. fold data.
  destruct (check_outcome userId (team params) (event params) data)
    as [[[[] [issue|]]|]|]; reflexivity.
Qed.

End Facts.

Lemma action_check_connection_witness :
  (λ _ : Request, Resolves "user-1")
    (mkRequest None [("intent", FormString "check-open-planner-integration");
                     ("eventId", FormString "evt"); ("apiKey", FormString "key")])
    = Resolves "user-1" ∧
  action string string (λ _, Resolves "user-1") mockSlack mockOptionalId mockId mockConfig
    (λ _ _ _ _, Resolves ()) (λ _ _ _ _, Resolves ())
    (λ _ _ _ _, Resolves (Some (mkCheck false None))) (λ _ _ _ _, Resolves ())
    (mkRequest None [("intent", FormString "check-open-planner-integration");
                     ("eventId", FormString "evt"); ("apiKey", FormString "key")])
    devfest []
  = (Resolves (Toast toast_error "OpenPlanner issue: undefined"),
     [EventIntegrations_checkConfiguration "user-1" "gdg-nantes" "devfest-nantes"
        (mkData None "OPEN_PLANNER" (mkConfig "evt" "key"))]).
Proof.
  split; [reflexivity|].
  exact (action_check_connection (λ _, Resolves "user-1") mockSlack mockOptionalId mockId
           mockConfig (λ _ _ _ _, Resolves ()) (λ _ _ _ _, Resolves ())
           (λ _ _ _ _, Resolves (Some (mkCheck false None))) (λ _ _ _ _, Resolves ())
           (mkRequest None [("intent", FormString "check-open-planner-integration");
                            ("eventId", FormString "evt"); ("apiKey", FormString "key")])
           devfest "user-1" None (mkConfig "evt" "key") [] eq_refl eq_refl eq_refl eq_refl).
Defined.

End IntegrationsFacts.

(** ** The team's invitation link: [teamExtension] *)

Module TeamExtension.

Section InvitationLink.

(** [appUrl()] *)
Variable appUrl : string.

(** [result.team.invitationLink.compute] *)
Definition invitationLink (invitationCode : string) : string :=
  appUrl +:+ "/invite/team/" +:+ invitationCode.

(** X15. The link determines the code: two invitation codes give
    the same link only when they are the same code, and the code is what
    is left of the link after the app URL and [/invite/team/]. *)
Theorem invitationLink_code (c1 c2 : string) :
  (invitationLink c1 = invitationLink c2 ↔ c1 = c2)
  ∧ String.substring (String.length (appUrl +:+ "/invite/team/")) (String.length c1)
      (invitationLink c1) = c1.
Proof.
  unfold invitationLink. split.
  - split; [|by intros ->]. intros H.
    apply (inj (String.app appUrl)) in H. by apply (inj (String.app "/invite/team/")) in H.
  - assert (∀ p s, String.substring (String.length p) (String.length s) (p +:+ s) = s) as Hsub.
    { assert (∀ s, String.substring 0 (String.length s) s = s) as Hall.
      { intros s. induction s as [|b s IHs]; simpl; [done|]. by rewrite IHs. }
      intros p s. induction p as [|a p IH]; simpl; [apply Hall|exact IH]. }
    assert (∀ a b c, a +:+ b +:+ c = (a +:+ b) +:+ c) as Hassoc.
    { intros a b c. induction a as [|x a IH]; [done|].
      change (String x (a +:+ b +:+ c) = String x ((a +:+ b) +:+ c)). by rewrite IH. }
    rewrite Hassoc.
    apply Hsub.
Qed.

End InvitationLink.

Example invitationLink_example :
  invitationLink "http://127.0.0.1:3000" "AbC123" = "http://127.0.0.1:3000/invite/team/AbC123".
Proof. reflexivity. Qed.

End TeamExtension.
